(** * oop_assignment.py: Device / Smartphone and the Vehicle family

    A shallow embedding of [src/oop_assignment.py].

    - Python [int] is unbounded, so integers are [Z]; [//] is floor
      division, which is [Z.div] for the positive divisors used here;
      [int(x)] is the identity on an [int] argument.
    - Python [str] values are [string]s; a literal holds the UTF-8 bytes
      of the source text.
    - An instance carries its run-time class, and every method call goes
      through the method resolution order of that class, as [self.m(...)]
      does. *)

From Stdlib Require Import ZArith String Ascii List Bool Lia DecimalString.
From Stdlib Require Import DecimalPos DecimalZ.
Import ListNotations.

Open Scope string_scope.
Open Scope Z_scope.

(** ** The fragments of the Python run time the program relies on *)
Module Py.

Inductive exn : Type :=
| AttributeError
| TypeError
| NotImplementedError.

(** A call either raises or returns. *)
Definition result (A : Type) : Type := (exn + A)%type.

Definition ret {A : Type} (a : A) : result A := inr a.
Definition raise {A : Type} (e : exn) : result A := inl e.

Definition bind {A B : Type} (r : result A) (k : A -> result B) : result B :=
  match r with
  | inl e => inl e
  | inr a => k a
  end.

(** [str(n)] for an [int], as an f-string field renders it. *)
Definition str (n : Z) : string := NilZero.string_of_int (Z.to_int n).

(** [len(l)]. *)
Definition len {A : Type} (l : list A) : Z := Z.of_nat (List.length l).

(** [x in l] for a list of [str]: equality of the strings. *)
Definition contains (x : string) (l : list string) : bool :=
  existsb (String.eqb x) l.

(** [max(a, b)] and [min(a, b)] on [int]. *)
Definition max (a b : Z) : Z := Z.max a b.
Definition min (a b : Z) : Z := Z.min a b.

(** [a // b]. *)
Definition floordiv (a b : Z) : Z := a / b.

End Py.

Notation "x <- r ;; k" := (Py.bind r (fun x => k))
  (at level 61, r at next level, right associativity).

(** ** Activity 1: instances of [Device] and [Smartphone] *)

Inductive cls : Type :=
| cDevice
| cSmartphone.

(** Attributes set by [Device.__init__]. *)
Record DeviceAttrs : Type := mkDeviceAttrs {
  brand : string;
  model : string;
  _battery : Z
}.

(** Attributes added by [Smartphone.__init__]. *)
Record SmartphoneAttrs : Type := mkSmartphoneAttrs {
  phone_number : string;
  apps : list string
}.

(** A value that a [Device]-typed reference may hold. *)
Inductive object : Type :=
| DeviceObj (d : DeviceAttrs)
| SmartphoneObj (d : DeviceAttrs) (p : SmartphoneAttrs).

Definition type_of (self : object) : cls :=
  match self with
  | DeviceObj _ => cDevice
  | SmartphoneObj _ _ => cSmartphone
  end.

Definition device_attrs (self : object) : DeviceAttrs :=
  match self with
  | DeviceObj d => d
  | SmartphoneObj d _ => d
  end.

(** [self._battery = v]. *)
Definition set__battery (self : object) (v : Z) : object :=
  match self with
  | DeviceObj d => DeviceObj (mkDeviceAttrs (brand d) (model d) v)
  | SmartphoneObj d p => SmartphoneObj (mkDeviceAttrs (brand d) (model d) v) p
  end.

(** *** class Device *)

Definition Device__init__ (brand model : string) (battery_level : Z) : object :=
  DeviceObj (mkDeviceAttrs brand model (Py.max 0 (Py.min 100 battery_level))).

(** The default of [battery_level] in both constructors. *)
Definition default_battery_level : Z := 100.

Definition Device_battery_level (self : object) : Z :=
  _battery (device_attrs self).

Definition Device_charge (self : object) (amount : Z) : object :=
  set__battery self
    (Py.max 0 (Py.min 100 (_battery (device_attrs self) + amount))).

Definition Device__drain (self : object) (amount : Z) : object :=
  set__battery self (Py.max 0 (_battery (device_attrs self) - amount)).

Definition Device_use (self : object) (minutes : Z) : object :=
  let drain := Py.max 0 (Py.floordiv minutes 10) in
  Device__drain self drain.

Definition Device_specs (self : object) : string :=
  brand (device_attrs self) ++ " " ++ model (device_attrs self)
  ++ " — Battery: " ++ Py.str (Device_battery_level self) ++ "%".

(** *** class Smartphone(Device) *)

Definition Smartphone__init__
  (brand model phone_number : string) (battery_level : Z) : object :=
  SmartphoneObj (device_attrs (Device__init__ brand model battery_level))
                (mkSmartphoneAttrs phone_number []).

(** [self.apps] exists on instances of [Smartphone] only. *)
Definition Smartphone_install_app (self : object) (name : string)
  : Py.result object :=
  match self with
  | SmartphoneObj d p =>
      if negb (Py.contains name (apps p)) then
        let self' :=
          SmartphoneObj d (mkSmartphoneAttrs (phone_number p) (apps p ++ [name])) in
        Py.ret (Device__drain self' 1)
      else Py.ret self
  | DeviceObj _ => Py.raise Py.AttributeError
  end.

(** The default of [minutes] in [Smartphone.call]. *)
Definition default_call_minutes : Z := 1.

Definition Smartphone_call (self : object) (number : string) (minutes : Z)
  : object :=
  let drain := Py.max 1 minutes in
  Device__drain self drain.

Definition Smartphone_specs (self : object) : Py.result string :=
  match self with
  | SmartphoneObj d p =>
      let app_count := Py.len (apps p) in
      Py.ret (brand d ++ " " ++ model d ++ " (📱 " ++ phone_number p ++ ") — "
              ++ "Apps: " ++ Py.str app_count ++ ", Battery: "
              ++ Py.str (Device_battery_level self) ++ "%")
  | DeviceObj _ => Py.raise Py.AttributeError
  end.

Definition Smartphone_use (self : object) (minutes : Z) : object :=
  let drain := Py.max 0 (Py.floordiv minutes 5) in
  Device__drain self drain.

(** *** Method resolution *)

(** The names each class body binds. *)
Definition class_body (c : cls) : list string :=
  match c with
  | cDevice =>
      ["__init__"; "battery_level"; "charge"; "_drain"; "use"; "specs"; "__str__"]
  | cSmartphone =>
      ["__init__"; "install_app"; "call"; "specs"; "use"]
  end.

Definition mro (c : cls) : list cls :=
  match c with
  | cDevice => [cDevice]
  | cSmartphone => [cSmartphone; cDevice]
  end.

(** The class whose definition of [name] an instance of [c] runs. *)
Definition resolve (c : cls) (name : string) : option cls :=
  find (fun k => Py.contains name (class_body k)) (mro c).

(** [self.charge(amount)]. *)
Definition charge (self : object) (amount : Z) : Py.result object :=
  match resolve (type_of self) "charge" with
  | Some cDevice => Py.ret (Device_charge self amount)
  | _ => Py.raise Py.AttributeError
  end.

(** [self.use(minutes)]. *)
Definition use (self : object) (minutes : Z) : Py.result object :=
  match resolve (type_of self) "use" with
  | Some cDevice => Py.ret (Device_use self minutes)
  | Some cSmartphone => Py.ret (Smartphone_use self minutes)
  | None => Py.raise Py.AttributeError
  end.

(** [self.install_app(name)]. *)
Definition install_app (self : object) (name : string) : Py.result object :=
  match resolve (type_of self) "install_app" with
  | Some cSmartphone => Smartphone_install_app self name
  | _ => Py.raise Py.AttributeError
  end.

(** [self.call(number, minutes)]. *)
Definition call (self : object) (number : string) (minutes : Z)
  : Py.result object :=
  match resolve (type_of self) "call" with
  | Some cSmartphone => Py.ret (Smartphone_call self number minutes)
  | _ => Py.raise Py.AttributeError
  end.

(** [self.specs()]. *)
Definition specs (self : object) : Py.result string :=
  match resolve (type_of self) "specs" with
  | Some cDevice => Py.ret (Device_specs self)
  | Some cSmartphone => Smartphone_specs self
  | None => Py.raise Py.AttributeError
  end.

(** [self.battery_level]. *)
Definition battery_level (self : object) : Py.result Z :=
  match resolve (type_of self) "battery_level" with
  | Some cDevice => Py.ret (Device_battery_level self)
  | _ => Py.raise Py.AttributeError
  end.

(** [Device.__str__]: its body is the call [self.specs()]. *)
Definition Device__str__ (self : object) : Py.result string :=
  specs self.

(** [str(self)]. *)
Definition str (self : object) : Py.result string :=
  match resolve (type_of self) "__str__" with
  | Some cDevice => Device__str__ self
  | _ => Py.raise Py.AttributeError
  end.

(** *** Callers: construction followed by public operations *)

Inductive constructor_call : Type :=
| NewDevice (brand model : string) (battery_level : Z)
| NewSmartphone (brand model phone_number : string) (battery_level : Z).

Definition construct (k : constructor_call) : object :=
  match k with
  | NewDevice b m lvl => Device__init__ b m lvl
  | NewSmartphone b m n lvl => Smartphone__init__ b m n lvl
  end.

Inductive op : Type :=
| Charge (amount : Z)
| Use (minutes : Z)
| InstallApp (name : string)
| Call (number : string) (minutes : Z).

Definition op_name (o : op) : string :=
  match o with
  | Charge _ => "charge"
  | Use _ => "use"
  | InstallApp _ => "install_app"
  | Call _ _ => "call"
  end.

Definition perform (self : object) (o : op) : Py.result object :=
  match o with
  | Charge amount => charge self amount
  | Use minutes => use self minutes
  | InstallApp name => install_app self name
  | Call number minutes => call self number minutes
  end.

Fixpoint run (self : object) (ops : list op) : Py.result object :=
  match ops with
  | [] => Py.ret self
  | o :: rest => self' <- perform self o ;; run self' rest
  end.

(** An operation is public on a class when the class or a base binds it. *)
Definition supports (c : cls) (o : op) : bool :=
  match resolve c (op_name o) with
  | Some _ => true
  | None => false
  end.

(** The battery invariant of the data model. *)
Definition battery_ok (self : object) : Prop :=
  0 <= Device_battery_level self <= 100.

(** Percent lost between two observations of [battery_level]. *)
Definition drained (before after : object) : Z :=
  Device_battery_level before - Device_battery_level after.

(** [clamp(x, lo, hi)] of the glossary. *)
Definition clamp (x lo hi : Z) : Z :=
  if x <? lo then lo else if hi <? x then hi else x.

(** [x in s] for [str]: [x] occurs in [s] as a contiguous run. *)
Fixpoint occurs_in (x s : string) : bool :=
  String.prefix x s ||
  match s with
  | EmptyString => false
  | String _ s' => occurs_in x s'
  end.

(** The shape every result of [Device.specs] has. *)
Definition Device_format (s : string) : Prop :=
  exists (b m : string) (lvl : Z),
    s = b ++ " " ++ m ++ " — Battery: " ++ Py.str lvl ++ "%".

(** ** Activity 2: [Vehicle(ABC)] and its subclasses *)

(** A function bound in a class namespace.  [move] reads nothing from
    [self], so its body is the outcome of the call. *)
Record function : Type := mkFunction {
  __isabstractmethod__ : bool;
  code : Py.result string
}.

Definition def (body : Py.result string) : function :=
  mkFunction false body.

(** The decorator [@abstractmethod]. *)
Definition abstractmethod (f : function) : function :=
  mkFunction true (code f).

(** A class statement: name, base and the namespace of its body (one
    binding per name).  [ABC] binds nothing abstract. *)
Inductive pyclass : Type :=
| ABC
| ClassDef (name : string) (base : pyclass) (namespace : list (string * function)).

Fixpoint lookup (name : string) (ns : list (string * function))
  : option function :=
  match ns with
  | [] => None
  | (k, f) :: rest => if String.eqb name k then Some f else lookup name rest
  end.

(** Attribute lookup on a class, along the chain of bases. *)
Fixpoint getattr (c : pyclass) (name : string) : option function :=
  match c with
  | ABC => None
  | ClassDef _ base ns =>
      match lookup name ns with
      | Some f => Some f
      | None => getattr base name
      end
  end.

Definition is_abstract (o : option function) : bool :=
  match o with
  | Some f => __isabstractmethod__ f
  | None => false
  end.

(** [cls.__abstractmethods__] as [ABCMeta] computes it when the class is
    created: the abstract names of the body, and the abstract names of the
    base that still resolve to an abstract function. *)
Fixpoint abstractmethods (c : pyclass) : list string :=
  match c with
  | ABC => []
  | ClassDef _ base ns =>
      map fst (filter (fun kv => __isabstractmethod__ (snd kv)) ns)
      ++ filter (fun name => is_abstract (getattr c name)) (abstractmethods base)
  end.

Record instance : Type := mkInstance { __class__ : pyclass }.

(** [c()]: creating an instance of a class with abstract methods left
    raises [TypeError]; no instance exists afterwards. *)
Definition new (c : pyclass) : Py.result instance :=
  match abstractmethods c with
  | [] => Py.ret (mkInstance c)
  | _ :: _ => Py.raise Py.TypeError
  end.

(** [self.move()]. *)
Definition move (self : instance) : Py.result string :=
  match getattr (__class__ self) "move" with
  | Some f => code f
  | None => Py.raise Py.AttributeError
  end.

Definition Vehicle_move : function :=
  abstractmethod (def (Py.raise Py.NotImplementedError)).

Definition Vehicle : pyclass :=
  ClassDef "Vehicle" ABC [("move", Vehicle_move)].

Definition Car_move : function := def (Py.ret "Driving 🚗").
Definition Car : pyclass := ClassDef "Car" Vehicle [("move", Car_move)].

Definition Bike_move : function := def (Py.ret "Riding 🚲").
Definition Bike : pyclass := ClassDef "Bike" Vehicle [("move", Bike_move)].

Definition Plane_move : function := def (Py.ret "Flying ✈️").
Definition Plane : pyclass := ClassDef "Plane" Vehicle [("move", Plane_move)].

(** [garage] of [demo_activity_2]. *)
Definition garage : Py.result (list instance) :=
  c <- new Car ;; b <- new Bike ;; p <- new Plane ;; Py.ret [c; b; p].

(** The namespace of the class statement itself, bases excluded. *)
Definition own_namespace (c : pyclass) : list (string * function) :=
  match c with
  | ABC => []
  | ClassDef _ _ ns => ns
  end.

(** [c] is [Vehicle] or descends from it through class bodies that do not
    bind [move]. *)
Inductive leaves_move_abstract : pyclass -> Prop :=
| lma_Vehicle : leaves_move_abstract Vehicle
| lma_sub (name : string) (base : pyclass) (ns : list (string * function)) :
    leaves_move_abstract base ->
    lookup "move" ns = None ->
    leaves_move_abstract (ClassDef name base ns).

(** ** Scanning a string from its end *)

Definition is_space (c : ascii) : bool := Ascii.eqb c " ".

Fixpoint has_space (s : string) : bool :=
  match s with
  | EmptyString => false
  | String c s' => is_space c || has_space s'
  end.

(** The text in front of the last space, when there is a space. *)
Fixpoint before_last_space (s : string) : option string :=
  match s with
  | EmptyString => None
  | String c s' =>
      match before_last_space s' with
      | Some r => Some (String c r)
      | None => if is_space c then Some EmptyString else None
      end
  end.

Fixpoint last_char (s : string) : option ascii :=
  match s with
  | EmptyString => None
  | String c s' =>
      match last_char s' with
      | Some l => Some l
      | None => Some c
      end
  end.

(** The text behind the last space; the whole text when there is none. *)
Fixpoint after_last_space (s : string) : string :=
  match s with
  | EmptyString => EmptyString
  | String c s' =>
      if has_space s' then after_last_space s'
      else if is_space c then s' else String c s'
  end.

(** The last field but two of a text, fields being separated by spaces. *)
Definition third_field_from_end (s : string) : string :=
  match before_last_space s with
  | Some s1 =>
      match before_last_space s1 with
      | Some s2 => after_last_space s2
      | None => EmptyString
      end
  | None => EmptyString
  end.

(** ** The demo: standard output and the two activities *)

(** A computation that writes lines to standard output and then returns
    or raises; what was written before a raise stays written. *)
Definition io (A : Type) : Type := list string -> list string * Py.result A.

Definition io_ret {A : Type} (a : A) : io A := fun out => (out, inr a).

Definition io_bind {A B : Type} (m : io A) (k : A -> io B) : io B :=
  fun out =>
    match m out with
    | (out', inl e) => (out', inl e)
    | (out', inr a) => k a out'
    end.

Definition lift {A : Type} (r : Py.result A) : io A := fun out => (out, r).

(** [print(text)]: one more line. *)
Definition print (text : string) : io unit :=
  fun out => ((out ++ [text])%list, inr tt).

Notation "x <~ m ;; k" := (io_bind m (fun x => k))
  (at level 61, m at next level, right associativity).

(** [print(label, x)], and [print(x)] for the empty label: the arguments
    joined by a space, [x] rendered by [str(x)]. *)
Definition print_object (label : string) (x : object) : io unit :=
  text <~ lift (str x) ;;
  print (match label with
         | EmptyString => text
         | _ => label ++ " " ++ text
         end).

Definition demo_activity_1 : io unit :=
  _ <~ print "=== Activity 1 — Device / Smartphone ===" ;;
  let d1 := Device__init__ "Acme" "Tab-10" 75 in
  let s1 := Smartphone__init__ "Pear" "iFruit 14" "+266-5012-3456" 65 in
  let s2 := Smartphone__init__ "Samesung" "Galaxy S42" "+266-5555-0000"
              default_battery_level in
  _ <~ print_object "" d1 ;;
  d1 <~ lift (use d1 25) ;;
  d1 <~ lift (charge d1 10) ;;
  _ <~ print_object "After use/charge:" d1 ;;
  _ <~ print_object "" s1 ;;
  s1 <~ lift (install_app s1 "Maps") ;;
  s1 <~ lift (install_app s1 "Chat") ;;
  s1 <~ lift (use s1 30) ;;
  s1 <~ lift (call s1 "+266-7777-8888" 3) ;;
  _ <~ print_object "After installs/use/call:" s1 ;;
  _ <~ print_object "" s2 ;;
  s2 <~ lift (install_app s2 "Music") ;;
  print_object "Installed 'Music':" s2.

(** [c.__name__]. *)
Definition __name__ (c : pyclass) : string :=
  match c with
  | ABC => "ABC"
  | ClassDef name _ _ => name
  end.

(** The loop [for v in garage: print(f"...")] of [demo_activity_2]. *)
Fixpoint print_moves (vs : list instance) : io unit :=
  match vs with
  | [] => io_ret tt
  | v :: rest =>
      m <~ lift (move v) ;;
      _ <~ print (__name__ (__class__ v) ++ ": " ++ m) ;;
      print_moves rest
  end.

Definition demo_activity_2 : io unit :=
  _ <~ print (String "010" "=== Activity 2 — Polymorphism: Vehicles.move() ===") ;;
  vs <~ lift garage ;;
  print_moves vs.

(** The script run as [__main__]. *)
Definition main : io unit :=
  _ <~ demo_activity_1 ;; demo_activity_2.

(** The line the loop prints for [v] when [v.move()] returned [text]. *)
Definition move_line (v : instance) (text : string) : string :=
  __name__ (__class__ v) ++ ": " ++ text.

(** ** Observations on sequences of operations *)

(** The names passed to [install_app] in a sequence, in call order. *)
Fixpoint installs (ops : list op) : list string :=
  match ops with
  | [] => []
  | InstallApp name :: rest => name :: installs rest
  | _ :: rest => installs rest
  end.

(** The operation is a [charge] with a positive amount. *)
Definition charges_up (o : op) : bool :=
  match o with
  | Charge amount => 0 <? amount
  | _ => false
  end.

(** * Properties *)

Ltac unfold_py := unfold Py.max, Py.min, Py.floordiv, Py.ret, Py.raise, Py.bind.

Example garage_runs :
  garage = inr [mkInstance Car; mkInstance Bike; mkInstance Plane].
Proof. reflexivity. Qed.

Example demo_d1 :
  (d <- use (Device__init__ "Acme" "Tab-10" 75) 25 ;; d' <- charge d 10 ;; str d')
  = inr "Acme Tab-10 — Battery: 83%".
Proof. reflexivity. Qed.

Example demo_s1 :
  (s <- run (Smartphone__init__ "Pear" "iFruit 14" "+266-5012-3456" 65)
            [InstallApp "Maps"; InstallApp "Chat"; Use 30;
             Call "+266-7777-8888" 3] ;;
   str s)
  = inr "Pear iFruit 14 (📱 +266-5012-3456) — Apps: 2, Battery: 54%".
Proof. reflexivity. Qed.

Example demo_s2 :
  (s <- install_app
          (Smartphone__init__ "Samesung" "Galaxy S42" "+266-5555-0000"
                              default_battery_level)
          "Music" ;;
   str s)
  = inr "Samesung Galaxy S42 (📱 +266-5555-0000) — Apps: 1, Battery: 99%".
Proof. reflexivity. Qed.

Example call_default_minutes :
  (s <- call (Smartphone__init__ "Pear" "iFruit 14" "+266" 65) "+266-7777-8888"
          default_call_minutes ;;
   battery_level s)
  = inr 64.
Proof. reflexivity. Qed.

Example Device_has_no_install_app :
  install_app (Device__init__ "Acme" "Tab-10" 75) "Maps" = inl Py.AttributeError.
Proof. reflexivity. Qed.

Example resolution_of_overrides :
  resolve cSmartphone "specs" = Some cSmartphone
  /\ resolve cSmartphone "use" = Some cSmartphone
  /\ resolve cSmartphone "__str__" = Some cDevice
  /\ resolve cSmartphone "charge" = Some cDevice
  /\ resolve cDevice "call" = None.
Proof. repeat split. Qed.

(** ** Attribute bookkeeping *)

Lemma battery_level_set (self : object) (v : Z) :
  Device_battery_level (set__battery self v) = v.
Proof. destruct self; reflexivity. Qed.

Lemma type_of_set (self : object) (v : Z) :
  type_of (set__battery self v) = type_of self.
Proof. destruct self; reflexivity. Qed.

Lemma brand_set (self : object) (v : Z) :
  brand (device_attrs (set__battery self v)) = brand (device_attrs self).
Proof. destruct self; reflexivity. Qed.

Lemma model_set (self : object) (v : Z) :
  model (device_attrs (set__battery self v)) = model (device_attrs self).
Proof. destruct self; reflexivity. Qed.

Lemma set_same (self : object) :
  set__battery self (Device_battery_level self) = self.
Proof. destruct self as [[b m l] | [b m l] p]; reflexivity. Qed.

Lemma clamp_max_min (x : Z) : Py.max 0 (Py.min 100 x) = clamp x 0 100.
Proof.
  unfold clamp; unfold_py.
  destruct (Z.ltb_spec x 0); destruct (Z.ltb_spec 100 x); lia.
Qed.

Lemma clamp_range (x : Z) : 0 <= clamp x 0 100 <= 100.
Proof.
  unfold clamp.
  destruct (Z.ltb_spec x 0); destruct (Z.ltb_spec 100 x); lia.
Qed.

(** ** The drain primitive *)

Lemma drain_level (self : object) (amount : Z) :
  Device_battery_level (Device__drain self amount)
  = Z.max 0 (Device_battery_level self - amount).
Proof. unfold Device__drain. now rewrite battery_level_set. Qed.

Lemma drain_nonneg_ok (self : object) (amount : Z) :
  0 <= amount -> battery_ok self -> battery_ok (Device__drain self amount).
Proof.
  unfold battery_ok. intros Ha Hok. rewrite drain_level. lia.
Qed.

Lemma drain_zero (self : object) :
  battery_ok self -> Device__drain self 0 = self.
Proof.
  unfold battery_ok, Device__drain. intros Hok. unfold_py.
  replace (Z.max 0 (_battery (device_attrs self) - 0))
    with (Device_battery_level self) by (unfold Device_battery_level in *; lia).
  apply set_same.
Qed.

Lemma charge_level (self : object) (amount : Z) :
  Device_battery_level (Device_charge self amount)
  = clamp (Device_battery_level self + amount) 0 100.
Proof.
  unfold Device_charge. rewrite battery_level_set. apply clamp_max_min.
Qed.

Lemma init_ok (k : constructor_call) : battery_ok (construct k).
Proof.
  destruct k; unfold battery_ok; cbn; rewrite clamp_max_min; apply clamp_range.
Qed.

(** ** Every public operation keeps the invariant and the class *)

Lemma perform_ok (self : object) (o : op) :
  battery_ok self ->
  supports (type_of self) o = true ->
  exists self',
    perform self o = inr self'
    /\ battery_ok self'
    /\ type_of self' = type_of self.
Proof.
  intros Hok Hsup.
  destruct o as [amount | minutes | name | number minutes].
  - exists (Device_charge self amount). repeat split.
    + destruct self; reflexivity.
    + rewrite charge_level. apply clamp_range.
    + rewrite charge_level. apply clamp_range.
    + unfold Device_charge. apply type_of_set.
  - destruct self as [d | d p].
    + exists (Device_use (DeviceObj d) minutes). split; [reflexivity|]. split.
      * apply drain_nonneg_ok; [unfold_py; lia | exact Hok].
      * apply type_of_set.
    + exists (Smartphone_use (SmartphoneObj d p) minutes).
      split; [reflexivity|]. split.
      * apply drain_nonneg_ok; [unfold_py; lia | exact Hok].
      * apply type_of_set.
  - destruct self as [d | d p]; [discriminate Hsup|].
    cbn. destruct (Py.contains name (apps p)); cbn.
    + exists (SmartphoneObj d p). auto.
    + eexists. split; [reflexivity|]. split; [|reflexivity].
      apply (drain_nonneg_ok
               (SmartphoneObj d (mkSmartphoneAttrs (phone_number p) (apps p ++ [name])))
               1); [lia | exact Hok].
  - destruct self as [d | d p]; [discriminate Hsup|].
    exists (Smartphone_call (SmartphoneObj d p) number minutes).
    split; [reflexivity|]. split.
    + apply drain_nonneg_ok; [unfold_py; lia | exact Hok].
    + apply type_of_set.
Qed.

Lemma run_ok (ops : list op) :
  forall self : object,
    battery_ok self ->
    Forall (fun o => supports (type_of self) o = true) ops ->
    exists self',
      run self ops = inr self'
      /\ battery_ok self'
      /\ type_of self' = type_of self.
Proof.
  induction ops as [| o rest IH]; intros self Hok Hall.
  - exists self. repeat split; apply Hok.
  - inversion Hall as [| ? ? Ho Hrest]; subst.
    destruct (perform_ok self o Hok Ho) as (s1 & Hp & Hok1 & Hty1).
    destruct (IH s1 Hok1) as (s2 & Hr & Hok2 & Hty2).
    + now rewrite Hty1.
    + exists s2. cbn. rewrite Hp. cbn. rewrite Hr. repeat split; try apply Hok2.
      congruence.
Qed.

(** C1. For an instance of [Device] or [Smartphone] built with any integer
    battery argument, every finite sequence of the public operations of its
    class ([charge], [use], [install_app], [call], with any integer
    arguments) runs to the end without raising, and [battery_level] then
    returns an integer in [0, 100]. *)
Theorem battery_level_always_in_range (k : constructor_call) (ops : list op) :
  Forall (fun o => supports (type_of (construct k)) o = true) ops ->
  exists self' lvl,
    run (construct k) ops = inr self'
    /\ battery_level self' = inr lvl
    /\ 0 <= lvl <= 100.
Proof.
  intros Hall.
  destruct (run_ok ops (construct k) (init_ok k) Hall) as (s & Hr & Hok & Hty).
  exists s, (Device_battery_level s). split; [exact Hr|]. split; [|exact Hok].
  unfold battery_level. rewrite Hty. destruct k; reflexivity.
Qed.

Lemma battery_level_always_in_range_witness :
  exists self' lvl,
    run (construct (NewSmartphone "Pear" "iFruit 14" "+266-5012-3456" 250))
        [Charge 1000; Use (-7); InstallApp "Maps"; Call "x" 4000; Charge (-3);
         Use 12345; Charge 17]
    = inr self'
    /\ battery_level self' = inr lvl
    /\ 0 <= lvl <= 100.
Proof.
  apply (battery_level_always_in_range
           (NewSmartphone "Pear" "iFruit 14" "+266-5012-3456" 250)).
  repeat constructor.
Defined.

(** ** Construction and charging *)

(** C3. [Device(brand, model, b)] has [battery_level = clamp(b, 0, 100)] and
    keeps [brand] and [model] as given; [charge(a)] returns normally for
    every integer [a] and sets the battery to [clamp(old + a, 0, 100)]; a
    negative [a] is accepted and acts as the drain of [-a]: the level does
    not rise, and falls whenever it was above zero. *)
Theorem construct_and_charge_clamp :
  (forall (b m : string) (lvl : Z),
      battery_level (Device__init__ b m lvl) = inr (clamp lvl 0 100)
      /\ brand (device_attrs (Device__init__ b m lvl)) = b
      /\ model (device_attrs (Device__init__ b m lvl)) = m)
  /\ (forall (self : object) (a : Z),
         exists self',
           charge self a = inr self'
           /\ Device_battery_level self'
              = clamp (Device_battery_level self + a) 0 100)
  /\ (forall (self : object) (a : Z),
         battery_ok self -> a < 0 ->
         charge self a = inr (Device__drain self (- a))
         /\ Device_battery_level (Device__drain self (- a))
            <= Device_battery_level self
         /\ (0 < Device_battery_level self ->
             Device_battery_level (Device__drain self (- a))
             < Device_battery_level self)).
Proof.
  split; [| split].
  - intros b m lvl. cbn. now rewrite clamp_max_min.
  - intros self a. exists (Device_charge self a). split.
    + destruct self; reflexivity.
    + apply charge_level.
  - intros self a Hok Ha.
    assert (Heq : Device_charge self a = Device__drain self (- a)).
    { unfold Device_charge, Device__drain. f_equal.
      unfold battery_ok, Device_battery_level in Hok. unfold_py. lia. }
    split; [| split].
    + rewrite <- Heq. destruct self; reflexivity.
    + rewrite drain_level. unfold battery_ok in Hok. lia.
    + intros Hpos. rewrite drain_level. lia.
Qed.

Lemma construct_and_charge_clamp_witness :
  charge (Device__init__ "A" "B" 150) (-30)
  = inr (Device__drain (Device__init__ "A" "B" 150) (- (-30)))
  /\ Device_battery_level (Device__drain (Device__init__ "A" "B" 150) (- (-30)))
     <= Device_battery_level (Device__init__ "A" "B" 150)
  /\ (0 < Device_battery_level (Device__init__ "A" "B" 150) ->
      Device_battery_level (Device__drain (Device__init__ "A" "B" 150) (- (-30)))
      < Device_battery_level (Device__init__ "A" "B" 150)).
Proof.
  apply (proj2 (proj2 construct_and_charge_clamp)).
  - unfold battery_ok. vm_compute. split; discriminate.
  - lia.
Defined.

Example construct_clamps_high :
  battery_level (Device__init__ "A" "B" 150) = inr 100.
Proof. reflexivity. Qed.

Example construct_clamps_low :
  battery_level (Device__init__ "A" "B" (-20)) = inr 0.
Proof. reflexivity. Qed.

(** ** Usage drains *)

Lemma floordiv_neg (minutes d : Z) :
  0 < d -> minutes < 0 -> Py.max 0 (Py.floordiv minutes d) = 0.
Proof.
  intros Hd Hm. unfold_py.
  assert (minutes / d < 0) by (apply Z.div_lt_upper_bound; lia). lia.
Qed.

(** C4. On an instance of [Device], [use(minutes)] is the drain of
    [max(0, minutes div 10)] percent, floored at the battery's zero bound;
    a negative [minutes] gives a drain of zero and returns normally with
    the state unchanged.  [Device("A","B",50); charge(10); use(25)] reads 60
    after the charge and 58 after the use. *)
Theorem Device_use_drains_tenth :
  (forall (self : object) (minutes : Z),
      type_of self = cDevice ->
      use self minutes = inr (Device__drain self (Z.max 0 (minutes / 10)))
      /\ Device_battery_level (Device__drain self (Z.max 0 (minutes / 10)))
         = Z.max 0 (Device_battery_level self - Z.max 0 (minutes / 10)))
  /\ (forall (self : object) (minutes : Z),
         type_of self = cDevice -> battery_ok self ->
         Z.max 0 (minutes / 10) <= Device_battery_level self ->
         exists self',
           use self minutes = inr self'
           /\ drained self self' = Z.max 0 (minutes / 10))
  /\ (forall (self : object) (minutes : Z),
         type_of self = cDevice -> battery_ok self -> minutes < 0 ->
         Z.max 0 (minutes / 10) = 0 /\ use self minutes = inr self)
  /\ (exists d1 d2,
         charge (Device__init__ "A" "B" 50) 10 = inr d1
         /\ battery_level d1 = inr 60
         /\ use d1 25 = inr d2
         /\ battery_level d2 = inr 58).
Proof.
  assert (Huse : forall self minutes,
             type_of self = cDevice ->
             use self minutes = inr (Device__drain self (Z.max 0 (minutes / 10)))).
  { intros self minutes Hty. destruct self; [reflexivity | discriminate]. }
  split; [| split; [| split]].
  - intros self minutes Hty. split; [now apply Huse | apply drain_level].
  - intros self minutes Hty Hok Hle. eexists. split; [now apply Huse|].
    unfold drained. rewrite drain_level. lia.
  - intros self minutes Hty Hok Hneg.
    pose proof (floordiv_neg minutes 10 ltac:(lia) Hneg) as Hz.
    unfold Py.max, Py.floordiv in Hz. split; [exact Hz|].
    rewrite Huse by exact Hty. rewrite Hz. now rewrite drain_zero.
  - eexists. eexists. repeat split.
Qed.

Lemma Device_use_drains_tenth_witness :
  Z.max 0 (-25 / 10) = 0
  /\ use (Device__init__ "A" "B" 50) (-25) = inr (Device__init__ "A" "B" 50).
Proof.
  apply (proj1 (proj2 (proj2 Device_use_drains_tenth))).
  - reflexivity.
  - unfold battery_ok. vm_compute. split; discriminate.
  - lia.
Defined.

Lemma fifth_vs_tenth (minutes : Z) :
  Z.max 0 (minutes / 5)
  = 2 * Z.max 0 (minutes / 10)
    + (if (0 <=? minutes) && (5 <=? minutes mod 10) then 1 else 0).
Proof.
  destruct (Z.leb_spec 0 minutes) as [Hpos | Hneg];
    destruct (Z.leb_spec 5 (minutes mod 10)) as [Hhi | Hlo]; cbn [andb];
    Z.to_euclidean_division_equations; lia.
Qed.

(** C2, as the code has it.  On an instance of [Smartphone],
    [use(minutes)] is the drain of [max(0, minutes div 5)] percent, floored
    at the battery's zero bound.  That amount is twice the amount
    [max(0, minutes div 10)] of [Device.use] when [minutes] is negative or
    [minutes mod 10 < 5], and twice that amount plus one otherwise.  From
    battery 100, [Device.use(20)] drains 2 and [Smartphone.use(20)] drains
    4. *)
Theorem Smartphone_use_drains_fifth :
  (forall (self : object) (minutes : Z),
      type_of self = cSmartphone ->
      use self minutes = inr (Device__drain self (Z.max 0 (minutes / 5)))
      /\ Device_battery_level (Device__drain self (Z.max 0 (minutes / 5)))
         = Z.max 0 (Device_battery_level self - Z.max 0 (minutes / 5)))
  /\ (forall minutes : Z,
         Z.max 0 (minutes / 5)
         = 2 * Z.max 0 (minutes / 10)
           + (if (0 <=? minutes) && (5 <=? minutes mod 10) then 1 else 0))
  /\ (forall minutes : Z,
         minutes < 0 \/ minutes mod 10 < 5 ->
         Z.max 0 (minutes / 5) = 2 * Z.max 0 (minutes / 10))
  /\ (exists d' s',
         use (Device__init__ "A" "B" 100) 20 = inr d'
         /\ drained (Device__init__ "A" "B" 100) d' = 2
         /\ use (Smartphone__init__ "A" "B" "N" 100) 20 = inr s'
         /\ drained (Smartphone__init__ "A" "B" "N" 100) s' = 4).
Proof.
  split; [| split; [| split]].
  - intros self minutes Hty. split; [| apply drain_level].
    destruct self; [discriminate | reflexivity].
  - apply fifth_vs_tenth.
  - intros minutes Hcase. rewrite fifth_vs_tenth.
    destruct (Z.leb_spec 0 minutes); destruct (Z.leb_spec 5 (minutes mod 10));
      cbn [andb]; lia.
  - eexists. eexists. repeat split.
Qed.

Lemma Smartphone_use_drains_fifth_witness :
  use (Smartphone__init__ "A" "B" "N" 100) 27
  = inr (Device__drain (Smartphone__init__ "A" "B" "N" 100) (Z.max 0 (27 / 5)))
  /\ Device_battery_level
       (Device__drain (Smartphone__init__ "A" "B" "N" 100) (Z.max 0 (27 / 5)))
     = Z.max 0 (Device_battery_level (Smartphone__init__ "A" "B" "N" 100)
                - Z.max 0 (27 / 5)).
Proof.
  apply (proj1 Smartphone_use_drains_fifth). reflexivity.
Defined.

(** C2 as stated fails at [minutes = 5]: from battery 100 the
    [Smartphone] loses 1 percent and the [Device] loses nothing, and 1 is
    not twice 0. *)
Lemma Smartphone_use_not_twice_at_5 :
  exists d' s',
    use (Device__init__ "A" "B" 100) 5 = inr d'
    /\ use (Smartphone__init__ "A" "B" "N" 100) 5 = inr s'
    /\ drained (Device__init__ "A" "B" 100) d' = 0
    /\ drained (Smartphone__init__ "A" "B" "N" 100) s' = 1
    /\ drained (Smartphone__init__ "A" "B" "N" 100) s'
       <> 2 * drained (Device__init__ "A" "B" 100) d'.
Proof.
  eexists. eexists. repeat split. discriminate.
Qed.

(** ** Installing apps and calling *)

Lemma contains_In (x : string) (l : list string) :
  Py.contains x l = true <-> In x l.
Proof.
  unfold Py.contains. rewrite existsb_exists. split.
  - intros (y & Hin & Heq). apply String.eqb_eq in Heq. now subst.
  - intros Hin. exists x. split; [exact Hin | apply String.eqb_refl].
Qed.

Lemma install_new (d : DeviceAttrs) (p : SmartphoneAttrs) (name : string) :
  ~ In name (apps p) ->
  install_app (SmartphoneObj d p) name
  = inr (SmartphoneObj
           (mkDeviceAttrs (brand d) (model d) (Z.max 0 (_battery d - 1)))
           (mkSmartphoneAttrs (phone_number p) (apps p ++ [name]))).
Proof.
  intros Hnew. cbn.
  destruct (Py.contains name (apps p)) eqn:Hc.
  - apply contains_In in Hc. contradiction.
  - reflexivity.
Qed.

Lemma install_present (d : DeviceAttrs) (p : SmartphoneAttrs) (name : string) :
  In name (apps p) ->
  install_app (SmartphoneObj d p) name = inr (SmartphoneObj d p).
Proof.
  intros Hin. cbn. apply contains_In in Hin. now rewrite Hin.
Qed.

(** C5. On any [Smartphone], [install_app(name)] with [name] not yet in
    [apps] puts [name] at the end of [apps], applies the drain of 1 percent
    (floored at the battery's zero bound; exactly 1 when the battery is
    above zero) and leaves the other attributes alone; with [name] already
    in [apps] it returns normally with the state unchanged.  A second
    install of the same name therefore changes nothing, and two installs of
    one name on a new [Smartphone] leave one app and the drain of 1. *)
Theorem install_app_once :
  (forall (d : DeviceAttrs) (p : SmartphoneAttrs) (name : string),
      ~ In name (apps p) ->
      exists self',
        install_app (SmartphoneObj d p) name = inr self'
        /\ self' = SmartphoneObj
                     (mkDeviceAttrs (brand d) (model d) (Z.max 0 (_battery d - 1)))
                     (mkSmartphoneAttrs (phone_number p) (apps p ++ [name]))
        /\ (0 < _battery d -> drained (SmartphoneObj d p) self' = 1))
  /\ (forall (d : DeviceAttrs) (p : SmartphoneAttrs) (name : string),
         In name (apps p) ->
         install_app (SmartphoneObj d p) name = inr (SmartphoneObj d p))
  /\ (forall (self self' : object) (name : string),
         install_app self name = inr self' ->
         install_app self' name = inr self')
  /\ (forall (b m n name : string) (lvl : Z),
         exists d' p',
           run (Smartphone__init__ b m n lvl) [InstallApp name; InstallApp name]
           = inr (SmartphoneObj d' p')
           /\ apps p' = [name]
           /\ Py.len (apps p') = 1
           /\ _battery d' = Z.max 0 (clamp lvl 0 100 - 1)
           /\ (0 < clamp lvl 0 100 ->
               drained (Smartphone__init__ b m n lvl) (SmartphoneObj d' p') = 1)).
Proof.
  split; [| split; [| split]].
  - intros d p name Hnew. eexists. split; [now apply install_new|].
    split; [reflexivity|]. intros Hpos.
    unfold drained, Device_battery_level. cbn [device_attrs _battery]. lia.
  - intros d p name Hin. now apply install_present.
  - intros self self' name Hfirst.
    destruct self as [d | d p]; [discriminate Hfirst|].
    destruct (in_dec string_dec name (apps p)) as [Hin | Hnew].
    + rewrite (install_present d p name Hin) in Hfirst.
      injection Hfirst as <-. now apply install_present.
    + rewrite (install_new d p name Hnew) in Hfirst.
      injection Hfirst as <-. apply install_present.
      cbn [apps]. apply in_or_app. right. now left.
  - intros b m n name lvl.
    eexists. eexists. split.
    + cbn. rewrite String.eqb_refl. cbn. reflexivity.
    + pose proof (clamp_max_min lvl) as Hc. unfold Py.max, Py.min in Hc.
      unfold drained, Device_battery_level, Py.len.
      cbn [device_attrs _battery apps Smartphone__init__ Device__init__
           List.length Z.of_nat Pos.of_succ_nat].
      unfold_py. rewrite Hc. repeat split. lia.
Qed.

Lemma install_app_once_witness :
  exists self',
    install_app (Smartphone__init__ "Pear" "iFruit 14" "+266" 65) "Maps"
    = inr self'
    /\ install_app self' "Maps" = inr self'.
Proof.
  eexists. split.
  - reflexivity.
  - apply (proj1 (proj2 (proj2 install_app_once))
             (Smartphone__init__ "Pear" "iFruit 14" "+266" 65)).
    reflexivity.
Defined.

Example install_maps_twice :
  run (Smartphone__init__ "Pear" "iFruit 14" "+266" 65)
      [InstallApp "Maps"; InstallApp "Maps"]
  = inr (SmartphoneObj (mkDeviceAttrs "Pear" "iFruit 14" 64)
                       (mkSmartphoneAttrs "+266" ["Maps"])).
Proof. reflexivity. Qed.

(** C6. On any [Smartphone], [call(number, minutes)] returns normally for
    every string and every integer and is the drain of [max(1, minutes)]
    percent, floored at the battery's zero bound: an amount of at least 1,
    so the level falls by at least 1 whenever it was above zero.  Only
    [_battery] changes and the outcome does not depend on [number].  A
    [Smartphone] at 50 reads 49 after [call("x", 0)]. *)
Theorem call_drains_at_least_one :
  (forall (self : object) (number : string) (minutes : Z),
      type_of self = cSmartphone ->
      call self number minutes
      = inr (set__battery self
               (Z.max 0 (Device_battery_level self - Z.max 1 minutes)))
      /\ 1 <= Z.max 1 minutes)
  /\ (forall (self : object) (number other : string) (minutes : Z),
         call self number minutes = call self other minutes)
  /\ (forall (self self' : object) (number : string) (minutes : Z),
         battery_ok self ->
         call self number minutes = inr self' ->
         (Z.max 1 minutes <= Device_battery_level self ->
          drained self self' = Z.max 1 minutes)
         /\ (0 < Device_battery_level self -> 1 <= drained self self'))
  /\ (forall b m n : string,
         exists self',
           call (Smartphone__init__ b m n 50) "x" 0 = inr self'
           /\ battery_level self' = inr 49).
Proof.
  split; [| split; [| split]].
  - intros self number minutes Hty. split; [| lia].
    destruct self; [discriminate | reflexivity].
  - intros self number other minutes. destruct self; reflexivity.
  - intros self self' number minutes Hok Hcall.
    destruct self as [d | d p]; [discriminate Hcall|].
    injection Hcall as <-.
    unfold drained, battery_ok, Device_battery_level in *.
    cbn [device_attrs _battery] in *. unfold_py. lia.
  - intros b m n. eexists. split; reflexivity.
Qed.

Lemma call_drains_at_least_one_witness :
  call (Smartphone__init__ "Pear" "iFruit 14" "+266" 50) "x" (-8)
  = inr (set__battery (Smartphone__init__ "Pear" "iFruit 14" "+266" 50)
           (Z.max 0 (Device_battery_level
                       (Smartphone__init__ "Pear" "iFruit 14" "+266" 50)
                     - Z.max 1 (-8))))
  /\ 1 <= Z.max 1 (-8).
Proof.
  apply (proj1 call_drains_at_least_one). reflexivity.
Defined.

(** ** The drain primitive has no upper clamp *)

(** C10. [_drain(amount)] sets the battery to [max(0, battery - amount)]
    with no clamp at 100: a negative amount strictly raises the battery and
    can take it above 100 (from 100, [_drain(-1)] gives 101).  Every caller
    of [_drain] ([Device.use], [Smartphone.use], [Smartphone.install_app],
    [Smartphone.call]) passes an amount that is not negative, and with such
    an amount [_drain] keeps the battery within [0, 100]. *)
Theorem drain_upper_bound_unreachable :
  (forall (self : object) (amount : Z),
      Device_battery_level (Device__drain self amount)
      = Z.max 0 (Device_battery_level self - amount))
  /\ (forall (self : object) (amount : Z),
         amount < 0 ->
         Device_battery_level self
         < Device_battery_level (Device__drain self amount))
  /\ (battery_ok (Device__init__ "A" "B" 100)
      /\ Device_battery_level (Device__drain (Device__init__ "A" "B" 100) (-1))
         = 101)
  /\ (forall (self : object) (minutes : Z),
         Device_use self minutes = Device__drain self (Z.max 0 (minutes / 10))
         /\ 0 <= Z.max 0 (minutes / 10))
  /\ (forall (self : object) (minutes : Z),
         Smartphone_use self minutes = Device__drain self (Z.max 0 (minutes / 5))
         /\ 0 <= Z.max 0 (minutes / 5))
  /\ (forall (self : object) (number : string) (minutes : Z),
         Smartphone_call self number minutes
         = Device__drain self (Z.max 1 minutes)
         /\ 0 <= Z.max 1 minutes)
  /\ (forall (self self' : object) (name : string),
         Smartphone_install_app self name = inr self' ->
         self' = self
         \/ exists s0,
             Device_battery_level s0 = Device_battery_level self
             /\ self' = Device__drain s0 1 /\ 0 <= 1)
  /\ (forall (self : object) (amount : Z),
         0 <= amount -> battery_ok self ->
         battery_ok (Device__drain self amount)).
Proof.
  split; [| split; [| split; [| split; [| split; [| split; [| split]]]]]].
  - apply drain_level.
  - intros self amount Hneg. rewrite drain_level. lia.
  - split; [unfold battery_ok; cbn; lia | reflexivity].
  - intros self minutes. split; [reflexivity | lia].
  - intros self minutes. split; [reflexivity | lia].
  - intros self number minutes. split; [reflexivity | lia].
  - intros self self' name Hinst. destruct self as [d | d p]; [discriminate|].
    cbn in Hinst. destruct (Py.contains name (apps p)); cbn in Hinst;
      injection Hinst as <-.
    + now left.
    + right.
      exists (SmartphoneObj d (mkSmartphoneAttrs (phone_number p) (apps p ++ [name]))).
      split; [reflexivity | split; [reflexivity | lia]].
  - apply drain_nonneg_ok.
Qed.

Lemma drain_upper_bound_unreachable_witness :
  Device_battery_level (Device__init__ "A" "B" 40)
  < Device_battery_level (Device__drain (Device__init__ "A" "B" 40) (-70)).
Proof.
  apply (proj1 (proj2 drain_upper_bound_unreachable)). lia.
Defined.

(** ** Strings: appending, occurrence, the last space *)

Lemma append_assoc (a b c : string) : (a ++ b) ++ c = a ++ (b ++ c).
Proof. induction a as [| x a IH]; cbn; [reflexivity | now rewrite IH]. Qed.

Lemma prefix_append (x t : string) : String.prefix x (x ++ t) = true.
Proof.
  induction x as [| c x IH]; cbn.
  - now destruct t.
  - destruct (ascii_dec c c) as [_ | Hne]; [exact IH | now elim Hne].
Qed.

Lemma occurs_in_middle (pre x post : string) :
  occurs_in x (pre ++ x ++ post) = true.
Proof.
  induction pre as [| c pre IH].
  - cbn [append]. destruct (x ++ post) eqn:Heq; cbn [occurs_in];
      rewrite <- Heq, prefix_append; reflexivity.
  - cbn [append occurs_in]. rewrite IH. apply orb_true_r.
Qed.

Lemma has_space_append (a b : string) :
  has_space (a ++ b) = has_space a || has_space b.
Proof.
  induction a as [| c a IH]; cbn; [reflexivity | now rewrite IH, orb_assoc].
Qed.

Lemma no_space_no_split (s : string) :
  has_space s = false -> before_last_space s = None.
Proof.
  induction s as [| c s IH]; cbn; [reflexivity|].
  intros H. apply orb_false_iff in H as [Hc Hs].
  now rewrite (IH Hs), Hc.
Qed.

Lemma before_last_space_append (p q : string) :
  has_space q = false ->
  before_last_space (p ++ String " " q) = Some p.
Proof.
  intros Hq. induction p as [| c p IH]; cbn.
  - now rewrite (no_space_no_split q Hq).
  - now rewrite IH.
Qed.

Lemma last_char_append (a b : string) (c : ascii) :
  last_char b = Some c -> last_char (a ++ b) = Some c.
Proof.
  intros Hb. induction a as [| x a IH]; cbn; [exact Hb | now rewrite IH].
Qed.

Lemma uint_no_space (d : Decimal.uint) :
  has_space (NilEmpty.string_of_uint d) = false.
Proof. induction d; cbn; auto. Qed.

Lemma str_no_space (n : Z) : has_space (Py.str n) = false.
Proof.
  unfold Py.str. destruct (Z.to_int n) as [d | d]; cbn.
  - destruct d; cbn; auto using uint_no_space.
  - destruct d; cbn; auto using uint_no_space.
Qed.

Lemma battery_field_no_space (n : Z) : has_space (Py.str n ++ "%") = false.
Proof. now rewrite has_space_append, str_no_space. Qed.

(** A text that ends in [", Battery: n%"] never ends in [" — Battery: n'%"]. *)
Lemma comma_is_not_dash (x y : string) (n n' : Z) :
  x ++ ", Battery: " ++ Py.str n ++ "%"
  <> y ++ " — Battery: " ++ Py.str n' ++ "%".
Proof.
  intros Heq.
  assert (Hl : x ++ ", Battery: " ++ Py.str n ++ "%"
               = (x ++ ", Battery:") ++ String " " (Py.str n ++ "%"))
    by (now rewrite append_assoc).
  assert (Hr : y ++ " — Battery: " ++ Py.str n' ++ "%"
               = (y ++ " — Battery:") ++ String " " (Py.str n' ++ "%"))
    by (now rewrite append_assoc).
  rewrite Hl, Hr in Heq.
  apply (f_equal before_last_space) in Heq.
  rewrite !before_last_space_append in Heq by apply battery_field_no_space.
  injection Heq as Heq.
  assert (Hl2 : x ++ ", Battery:" = (x ++ ",") ++ String " " "Battery:")
    by (now rewrite append_assoc).
  assert (Hr2 : y ++ " — Battery:" = (y ++ " —") ++ String " " "Battery:")
    by (now rewrite append_assoc).
  rewrite Hl2, Hr2 in Heq.
  apply (f_equal before_last_space) in Heq.
  rewrite !before_last_space_append in Heq by reflexivity.
  injection Heq as Heq.
  apply (f_equal last_char) in Heq.
  rewrite (last_char_append x "," ","%char) in Heq by reflexivity.
  erewrite (last_char_append y " —") in Heq by reflexivity.
  discriminate Heq.
Qed.

(** ** Textual representation *)

Lemma Smartphone_specs_not_Device_format (d : DeviceAttrs) (p : SmartphoneAttrs)
      (s : string) :
  Smartphone_specs (SmartphoneObj d p) = inr s -> ~ Device_format s.
Proof.
  intros Hs (b & m & lvl & Hfmt).
  injection Hs as Hs. rewrite <- Hs in Hfmt. clear Hs.
  apply (comma_is_not_dash
           (brand d ++ " " ++ model d ++ " (📱 " ++ phone_number p ++ ") — "
            ++ "Apps: " ++ Py.str (Py.len (apps p)))
           (b ++ " " ++ m)
           (Device_battery_level (SmartphoneObj d p)) lvl).
  rewrite !append_assoc. exact Hfmt.
Qed.

Lemma Device_specs_format (self : object) : Device_format (Device_specs self).
Proof.
  exists (brand (device_attrs self)), (model (device_attrs self)),
         (Device_battery_level self).
  reflexivity.
Qed.

(** C7. [str(x)] is the value of [x.specs()] for every instance [x] held
    by a [Device]-typed reference ([Device.__str__] is the only definition
    of [__str__] and its body is the dispatched call).  For a [Device] that
    is the result of [Device.specs]; for a [Smartphone] it is the result of
    [Smartphone.specs], which contains the phone number and the number of
    installed apps, differs from what [Device.specs] gives on the same
    instance, and does not have the [Device] format at all. *)
Theorem str_is_dispatched_specs :
  (forall self : object, str self = specs self)
  /\ (forall d : DeviceAttrs,
         str (DeviceObj d) = inr (Device_specs (DeviceObj d)))
  /\ (forall (d : DeviceAttrs) (p : SmartphoneAttrs),
         exists s : string,
           str (SmartphoneObj d p) = inr s
           /\ Smartphone_specs (SmartphoneObj d p) = inr s
           /\ occurs_in (phone_number p) s = true
           /\ occurs_in (Py.str (Py.len (apps p))) s = true
           /\ s <> Device_specs (SmartphoneObj d p)
           /\ ~ Device_format s).
Proof.
  split; [| split].
  - intros self. destruct self; reflexivity.
  - reflexivity.
  - intros d p.
    set (lvl := Py.str (Device_battery_level (SmartphoneObj d p))).
    set (count := Py.str (Py.len (apps p))).
    set (text := brand d ++ " " ++ model d ++ " (📱 " ++ phone_number p ++ ") — "
                 ++ "Apps: " ++ count ++ ", Battery: " ++ lvl ++ "%").
    assert (Hs : Smartphone_specs (SmartphoneObj d p) = inr text) by reflexivity.
    pose proof (Smartphone_specs_not_Device_format d p text Hs) as Hfmt.
    exists text. split; [exact Hs|]. split; [exact Hs|].
    split; [| split; [| split]].
    + assert (E : text = (brand d ++ " " ++ model d ++ " (📱 ") ++ phone_number p
                         ++ (") — " ++ "Apps: " ++ count ++ ", Battery: "
                             ++ lvl ++ "%"))
        by (unfold text; now rewrite !append_assoc).
      rewrite E. apply occurs_in_middle.
    + assert (E : text = (brand d ++ " " ++ model d ++ " (📱 " ++ phone_number p
                          ++ ") — " ++ "Apps: ") ++ count
                         ++ (", Battery: " ++ lvl ++ "%"))
        by (unfold text; now rewrite !append_assoc).
      rewrite E. apply occurs_in_middle.
    + intros Heq. apply Hfmt. rewrite Heq. apply Device_specs_format.
    + exact Hfmt.
Qed.

Lemma str_is_dispatched_specs_witness :
  exists s : string,
    str (Smartphone__init__ "Pear" "iFruit 14" "+266-5012-3456" 65) = inr s
    /\ Smartphone_specs (Smartphone__init__ "Pear" "iFruit 14" "+266-5012-3456" 65)
       = inr s
    /\ occurs_in "+266-5012-3456" s = true
    /\ occurs_in (Py.str (Py.len (@nil string))) s = true
    /\ s <> Device_specs (Smartphone__init__ "Pear" "iFruit 14" "+266-5012-3456" 65)
    /\ ~ Device_format s.
Proof.
  exact (proj2 (proj2 str_is_dispatched_specs)
           (mkDeviceAttrs "Pear" "iFruit 14" 65)
           (mkSmartphoneAttrs "+266-5012-3456" [])).
Defined.

Example str_of_smartphone_behind_device_reference :
  let held : object := Smartphone__init__ "Pear" "iFruit 14" "+266-5012-3456" 65 in
  str held = inr "Pear iFruit 14 (📱 +266-5012-3456) — Apps: 0, Battery: 65%".
Proof. reflexivity. Qed.

(** ** Vehicles *)

Lemma move_stays_abstract (c : pyclass) :
  leaves_move_abstract c ->
  getattr c "move" = Some Vehicle_move /\ In "move" (abstractmethods c).
Proof.
  induction 1 as [| name base ns Hbase [IHget IHin] Hns].
  - split; [reflexivity | now left].
  - assert (Hget : getattr (ClassDef name base ns) "move" = Some Vehicle_move)
      by (cbn [getattr]; now rewrite Hns).
    split; [exact Hget|].
    cbn [abstractmethods]. apply in_or_app. right.
    apply filter_In. split; [exact IHin|]. now rewrite Hget.
Qed.

Lemma new_abstract (c : pyclass) (name : string) :
  In name (abstractmethods c) -> new c = inl Py.TypeError.
Proof.
  unfold new. destruct (abstractmethods c); [contradiction | reflexivity].
Qed.

Lemma lookup_In (name : string) (ns : list (string * function)) (f : function) :
  lookup name ns = Some f -> In (name, f) ns.
Proof.
  induction ns as [| [k g] rest IH]; cbn; [discriminate|].
  destruct (String.eqb_spec name k) as [-> | _].
  - intros [= ->]. now left.
  - intros H. right. now apply IH.
Qed.

(** An abstract function reachable from a class is listed in its
    [__abstractmethods__]. *)
Lemma abstract_is_listed (c : pyclass) (name : string) :
  is_abstract (getattr c name) = true -> In name (abstractmethods c).
Proof.
  induction c as [| cname base IH ns]; [discriminate|].
  intros Habs. cbn [abstractmethods]. apply in_or_app.
  destruct (lookup name ns) as [f |] eqn:Hl.
  - left. cbn [getattr] in Habs. rewrite Hl in Habs.
    apply (in_map fst _ (name, f)), filter_In. split; [now apply lookup_In | exact Habs].
  - right. apply filter_In. split; [| exact Habs].
    apply IH. cbn [getattr] in Habs. now rewrite Hl in Habs.
Qed.

(** No instance ever dispatches to an abstract function. *)
Lemma instances_run_concrete_functions (c : pyclass) (v : instance)
      (name : string) (f : function) :
  new c = inr v -> getattr c name = Some f -> __isabstractmethod__ f = false.
Proof.
  intros Hnew Hget. destruct (__isabstractmethod__ f) eqn:Hf; [| reflexivity].
  assert (Hin : In name (abstractmethods c))
    by (apply abstract_is_listed; rewrite Hget; exact Hf).
  rewrite (new_abstract c name Hin) in Hnew. discriminate Hnew.
Qed.

(** C8. [Car.move()], [Bike.move()] and [Plane.move()] each return one
    fixed string, the three strings are pairwise different, [garage] of the
    demo is built without error, and for every element of any list of
    instances of these classes [move()] runs the function bound in the
    element's own class body, never the body of [Vehicle.move]. *)
Theorem move_runs_own_class_body :
  (move (mkInstance Car) = inr "Driving 🚗"
   /\ move (mkInstance Bike) = inr "Riding 🚲"
   /\ move (mkInstance Plane) = inr "Flying ✈️")
  /\ ("Driving 🚗" <> "Riding 🚲"
      /\ "Driving 🚗" <> "Flying ✈️"
      /\ "Riding 🚲" <> "Flying ✈️")
  /\ (exists vs : list instance,
         garage = inr vs
         /\ map move vs = [inr "Driving 🚗"; inr "Riding 🚲"; inr "Flying ✈️"])
  /\ (forall vs : list instance,
         Forall (fun v => In (__class__ v) [Car; Bike; Plane]) vs ->
         forall v : instance,
           In v vs ->
           exists f : function,
             lookup "move" (own_namespace (__class__ v)) = Some f
             /\ move v = code f
             /\ move v <> code Vehicle_move).
Proof.
  split; [| split; [| split]].
  - repeat split.
  - repeat split; discriminate.
  - eexists. split; reflexivity.
  - intros vs Hall v Hin.
    rewrite Forall_forall in Hall. specialize (Hall v Hin).
    destruct v as [c]. cbn [__class__] in *.
    destruct Hall as [<- | [<- | [<- | []]]].
    + exists Car_move. repeat split. discriminate.
    + exists Bike_move. repeat split. discriminate.
    + exists Plane_move. repeat split. discriminate.
Qed.

Lemma move_runs_own_class_body_witness :
  exists f : function,
    lookup "move" (own_namespace (__class__ (mkInstance Bike))) = Some f
    /\ move (mkInstance Bike) = code f
    /\ move (mkInstance Bike) <> code Vehicle_move.
Proof.
  apply (proj2 (proj2 (proj2 move_runs_own_class_body))
           [mkInstance Car; mkInstance Bike; mkInstance Plane]).
  - repeat (apply Forall_cons; [cbn; auto 6 |]). apply Forall_nil.
  - right. left. reflexivity.
Defined.

(** C9. [Vehicle.move] is abstract and its body only raises.  Creating an
    instance of [Vehicle], or of any class that descends from it through
    class bodies that bind no [move], raises [TypeError] at the creation:
    no instance comes into being, and a program that creates one and then
    calls [move()] stops with that [TypeError], not with the
    [NotImplementedError] of the body.  [Car], [Bike] and [Plane] bind
    [move] and are created normally. *)
Theorem abstract_move_fails_at_construction :
  (__isabstractmethod__ Vehicle_move = true
   /\ code Vehicle_move = inl Py.NotImplementedError)
  /\ new Vehicle = inl Py.TypeError
  /\ (forall c : pyclass,
         leaves_move_abstract c ->
         new c = inl Py.TypeError
         /\ (forall v : instance, new c <> inr v)
         /\ (v <- new c ;; move v) = inl Py.TypeError)
  /\ (new Car = inr (mkInstance Car)
      /\ new Bike = inr (mkInstance Bike)
      /\ new Plane = inr (mkInstance Plane)).
Proof.
  split; [| split; [| split]].
  - split; reflexivity.
  - reflexivity.
  - intros c Hc.
    destruct (move_stays_abstract c Hc) as [_ Hin].
    pose proof (new_abstract c "move" Hin) as Hnew.
    rewrite Hnew. repeat split. intros v. discriminate.
  - repeat split.
Qed.

Lemma abstract_move_fails_at_construction_witness :
  new (ClassDef "Boat" Vehicle [("horn", def (Py.ret "Honk"))]) = inl Py.TypeError
  /\ (forall v : instance,
         new (ClassDef "Boat" Vehicle [("horn", def (Py.ret "Honk"))]) <> inr v)
  /\ (v <- new (ClassDef "Boat" Vehicle [("horn", def (Py.ret "Honk"))]) ;; move v)
     = inl Py.TypeError.
Proof.
  apply (proj1 (proj2 (proj2 abstract_move_fails_at_construction))).
  apply lma_sub; [apply lma_Vehicle | reflexivity].
Defined.

(** * Further properties *)

(** ** The demo *)

Example main_output :
  main []
  = (["=== Activity 1 — Device / Smartphone ===";
      "Acme Tab-10 — Battery: 75%";
      "After use/charge: Acme Tab-10 — Battery: 83%";
      "Pear iFruit 14 (📱 +266-5012-3456) — Apps: 0, Battery: 65%";
      "After installs/use/call: Pear iFruit 14 (📱 +266-5012-3456) — Apps: 2, Battery: 54%";
      "Samesung Galaxy S42 (📱 +266-5555-0000) — Apps: 0, Battery: 100%";
      "Installed 'Music': Samesung Galaxy S42 (📱 +266-5555-0000) — Apps: 1, Battery: 99%";
      String "010" "=== Activity 2 — Polymorphism: Vehicles.move() ===";
      "Car: Driving 🚗";
      "Bike: Riding 🚲";
      "Plane: Flying ✈️"],
     inr tt).
Proof. reflexivity. Qed.

(** ** What one operation does to an instance *)

Lemma perform_device (d : DeviceAttrs) (o : op) (self' : object) :
  perform (DeviceObj d) o = inr self' ->
  exists d', self' = DeviceObj d' /\ brand d' = brand d /\ model d' = model d.
Proof.
  destruct o as [amount | minutes | name | number minutes]; cbn;
    intros H; try discriminate H; injection H as <-; eexists; repeat split.
Qed.

Lemma perform_smartphone (d : DeviceAttrs) (p : SmartphoneAttrs) (o : op)
      (self' : object) :
  perform (SmartphoneObj d p) o = inr self' ->
  exists d' p',
    self' = SmartphoneObj d' p'
    /\ brand d' = brand d /\ model d' = model d
    /\ phone_number p' = phone_number p
    /\ ((apps p' = apps p /\ forall n, o = InstallApp n -> In n (apps p))
        \/ exists n, o = InstallApp n /\ ~ In n (apps p)
                     /\ apps p' = (apps p ++ [n])%list).
Proof.
  destruct o as [amount | minutes | name | number minutes].
  - cbn. intros [= <-]. eexists. eexists. repeat split. left.
    split; [reflexivity | discriminate].
  - cbn. intros [= <-]. eexists. eexists. repeat split. left.
    split; [reflexivity | discriminate].
  - destruct (in_dec string_dec name (apps p)) as [Hin | Hnew].
    + cbn [perform]. rewrite (install_present d p name Hin). intros [= <-].
      exists d, p. repeat split. left. split; [reflexivity|].
      now intros n [= <-].
    + cbn [perform]. rewrite (install_new d p name Hnew). intros [= <-].
      eexists. eexists. repeat split. right. exists name. now repeat split.
  - cbn. intros [= <-]. eexists. eexists. repeat split. left.
    split; [reflexivity | discriminate].
Qed.

Lemma installs_cons (o : op) (rest : list op) (n : string) :
  In n (installs rest) -> In n (installs (o :: rest)).
Proof. destruct o; cbn; auto. Qed.

Lemma installs_In (ops : list op) (n : string) :
  In n (installs ops) <-> In (InstallApp n) ops.
Proof.
  induction ops as [| o rest IH]; cbn; [tauto|].
  destruct o; cbn; rewrite IH; split; intros H;
    try (now right); try (destruct H as [H | H]; [discriminate H | exact H]).
  - destruct H as [-> | H]; [now left | now right].
  - destruct H as [[= ->] | H]; [now left | now right].
Qed.

Lemma installs_length (o : op) (rest : list op) :
  (List.length (installs rest) <= List.length (installs (o :: rest)))%nat.
Proof. destruct o; cbn; lia. Qed.

(** The whole effect of a sequence on the attributes of a [Smartphone]
    other than the battery. *)
Lemma run_smartphone (ops : list op) :
  forall (d : DeviceAttrs) (p : SmartphoneAttrs) (self' : object),
    run (SmartphoneObj d p) ops = inr self' ->
    exists d' p' suffix,
      self' = SmartphoneObj d' p'
      /\ brand d' = brand d /\ model d' = model d
      /\ phone_number p' = phone_number p
      /\ apps p' = (apps p ++ suffix)%list
      /\ NoDup suffix
      /\ (forall n, In n suffix -> In n (installs ops) /\ ~ In n (apps p))
      /\ (forall n, In n (installs ops) -> In n (apps p ++ suffix)%list)
      /\ (List.length suffix <= List.length (installs ops))%nat.
Proof.
  induction ops as [| o rest IH]; intros d p self' Hrun.
  - cbn in Hrun. injection Hrun as <-. exists d, p, [].
    rewrite app_nil_r. repeat split; try constructor; try contradiction.
  - cbn [run] in Hrun.
    destruct (perform (SmartphoneObj d p) o) as [e | s1] eqn:Hp;
      [discriminate Hrun|]. cbn [Py.bind] in Hrun.
    destruct (perform_smartphone d p o s1 Hp)
      as (d1 & p1 & -> & Hb1 & Hm1 & Hn1 & Hcase).
    destruct (IH d1 p1 self' Hrun)
      as (d2 & p2 & suf & -> & Hb2 & Hm2 & Hn2 & Ha2 & Hnd & Hfresh & Hall & Hlen).
    pose proof (installs_length o rest) as Hmono.
    destruct Hcase as [[Hsame Hpresent] | (n0 & -> & Hnew & Happ)].
    + exists d2, p2, suf. rewrite Hsame in *.
      repeat split; try congruence; try exact Hnd; try lia.
      * now apply installs_cons, Hfresh.
      * now apply Hfresh.
      * intros n Hin. destruct o; cbn in Hin; try (now apply Hall).
        destruct Hin as [<- | Hin]; [| now apply Hall].
        apply in_or_app. left. now apply Hpresent.
    + exists d2, p2, (n0 :: suf). rewrite Happ in *.
      repeat split; try congruence.
      * rewrite Ha2, <- app_assoc. reflexivity.
      * constructor; [| exact Hnd]. intros Hin.
        apply Hfresh in Hin as [_ Hnot]. apply Hnot, in_or_app. right. now left.
      * destruct H as [<- | Hin]; [now left |].
        right. now apply Hfresh.
      * destruct H as [<- | Hin]; [exact Hnew |].
        intros Hold. apply Hfresh in Hin as [_ Hnot].
        apply Hnot, in_or_app. now left.
      * intros n Hin. cbn in Hin.
        destruct Hin as [<- | Hin].
        -- apply in_or_app. right. now left.
        -- specialize (Hall n Hin). rewrite <- app_assoc in Hall. exact Hall.
      * cbn. lia.
Qed.

Lemma run_device (ops : list op) :
  forall (d : DeviceAttrs) (self' : object),
    run (DeviceObj d) ops = inr self' ->
    exists d', self' = DeviceObj d' /\ brand d' = brand d /\ model d' = model d.
Proof.
  induction ops as [| o rest IH]; intros d self' Hrun.
  - injection Hrun as <-. now exists d.
  - cbn [run] in Hrun.
    destruct (perform (DeviceObj d) o) as [e | s1] eqn:Hp; [discriminate Hrun|].
    destruct (perform_device d o s1 Hp) as (d1 & -> & Hb1 & Hm1).
    destruct (IH d1 self' Hrun) as (d2 & -> & Hb2 & Hm2).
    exists d2. repeat split; congruence.
Qed.

(** ** Identity fields and the list of apps *)

(** X1. No sequence of public operations changes the class of an
    instance, its [brand], its [model] or, on a [Smartphone], its
    [phone_number]. *)
Theorem identity_fields_never_change (self self' : object) (ops : list op) :
  run self ops = inr self' ->
  type_of self' = type_of self
  /\ brand (device_attrs self') = brand (device_attrs self)
  /\ model (device_attrs self') = model (device_attrs self)
  /\ (forall d p, self = SmartphoneObj d p ->
      exists d' p', self' = SmartphoneObj d' p'
                    /\ phone_number p' = phone_number p).
Proof.
  intros Hrun. destruct self as [d | d p].
  - destruct (run_device ops d self' Hrun) as (d' & -> & Hb & Hm).
    repeat split; try assumption. discriminate.
  - destruct (run_smartphone ops d p self' Hrun)
      as (d' & p' & suf & -> & Hb & Hm & Hn & _).
    repeat split; try assumption.
    intros d0 p0 [= <- <-]. now exists d', p'.
Qed.

Lemma identity_fields_never_change_witness :
  exists self',
    run (Smartphone__init__ "Pear" "iFruit 14" "+266" 65)
        [InstallApp "Maps"; Charge 50; Call "x" 7; Use 33] = inr self'
    /\ type_of self' = cSmartphone
    /\ brand (device_attrs self') = "Pear"
    /\ model (device_attrs self') = "iFruit 14".
Proof.
  eexists. split; [reflexivity|].
  destruct (identity_fields_never_change
              (Smartphone__init__ "Pear" "iFruit 14" "+266" 65) _
              [InstallApp "Maps"; Charge 50; Call "x" 7; Use 33] eq_refl)
    as (Hty & Hb & Hm & _).
  exact (conj Hty (conj Hb Hm)).
Defined.

(** X2. The list of apps never holds a name twice: a sequence of public
    operations keeps [apps] free of duplicates, and on a [Smartphone]
    that was just constructed it is free of duplicates after any
    sequence. *)
Theorem installed_apps_stay_unique :
  (forall (d d' : DeviceAttrs) (p p' : SmartphoneAttrs) (ops : list op),
      NoDup (apps p) ->
      run (SmartphoneObj d p) ops = inr (SmartphoneObj d' p') ->
      NoDup (apps p'))
  /\ (forall (b m n : string) (lvl : Z) (ops : list op)
             (d' : DeviceAttrs) (p' : SmartphoneAttrs),
         run (Smartphone__init__ b m n lvl) ops = inr (SmartphoneObj d' p') ->
         NoDup (apps p')).
Proof.
  assert (Hgen : forall d d' p p' ops,
             NoDup (apps p) ->
             run (SmartphoneObj d p) ops = inr (SmartphoneObj d' p') ->
             NoDup (apps p')).
  { intros d d' p p' ops Hnd Hrun.
    destruct (run_smartphone ops d p _ Hrun)
      as (d2 & p2 & suf & [= -> ->] & _ & _ & _ & Ha & Hsuf & Hfresh & _).
    rewrite Ha. apply NoDup_app; [exact Hnd | exact Hsuf |].
    intros a Hin Hin'. now apply Hfresh in Hin'. }
  split; [exact Hgen|].
  intros b m n lvl ops d' p' Hrun.
  apply (Hgen (device_attrs (Device__init__ b m lvl)) d'
              (mkSmartphoneAttrs n []) p' ops); [apply NoDup_nil | exact Hrun].
Qed.

Lemma installed_apps_stay_unique_witness :
  NoDup ["Maps"; "Chat"].
Proof.
  apply (proj2 installed_apps_stay_unique "Pear" "iFruit 14" "+266" 65
           [InstallApp "Maps"; InstallApp "Chat"; InstallApp "Maps"; Use 30;
            InstallApp "Chat"]
           (mkDeviceAttrs "Pear" "iFruit 14" 57)
           (mkSmartphoneAttrs "+266" ["Maps"; "Chat"])).
  reflexivity.
Defined.

(** X3. After a sequence of public operations a name is in [apps]
    exactly when it was there before or [install_app] was called with it
    during the sequence; nothing else puts a name in and nothing takes one
    out. *)
Theorem installed_iff_requested
        (d d' : DeviceAttrs) (p p' : SmartphoneAttrs) (ops : list op) :
  run (SmartphoneObj d p) ops = inr (SmartphoneObj d' p') ->
  forall name : string,
    In name (apps p') <-> In name (apps p) \/ In (InstallApp name) ops.
Proof.
  intros Hrun name.
  destruct (run_smartphone ops d p _ Hrun)
    as (d2 & p2 & suf & [= -> ->] & _ & _ & _ & Ha & _ & Hfresh & Hall & _).
  rewrite Ha, <- installs_In. split.
  - intros Hin. apply in_app_or in Hin as [Hold | Hnew]; [now left |].
    right. now apply Hfresh.
  - intros [Hold | Hreq]; [apply in_or_app; now left | now apply Hall].
Qed.

Lemma installed_iff_requested_witness :
  In "Chat" ["Maps"; "Chat"]
  <-> In "Chat" ["Maps"]
      \/ In (InstallApp "Chat") [Use 5; InstallApp "Chat"; InstallApp "Maps"].
Proof.
  apply (installed_iff_requested
           (mkDeviceAttrs "Pear" "iFruit 14" 65) (mkDeviceAttrs "Pear" "iFruit 14" 63)
           (mkSmartphoneAttrs "+266" ["Maps"])
           (mkSmartphoneAttrs "+266" ["Maps"; "Chat"])
           [Use 5; InstallApp "Chat"; InstallApp "Maps"]).
  reflexivity.
Defined.

(** X4. The list of apps only grows at its end: after a sequence of
    public operations the earlier list is still there, in the same order,
    followed by the names added, and at most one name is added per call of
    [install_app]. *)
Theorem apps_only_grow_at_the_end
        (d d' : DeviceAttrs) (p p' : SmartphoneAttrs) (ops : list op) :
  run (SmartphoneObj d p) ops = inr (SmartphoneObj d' p') ->
  exists added : list string,
    apps p' = (apps p ++ added)%list
    /\ Py.len (apps p) <= Py.len (apps p')
       <= Py.len (apps p) + Py.len (installs ops).
Proof.
  intros Hrun.
  destruct (run_smartphone ops d p _ Hrun)
    as (d2 & p2 & suf & [= -> ->] & _ & _ & _ & Ha & _ & _ & _ & Hlen).
  exists suf. split; [exact Ha|].
  unfold Py.len. rewrite Ha, length_app. lia.
Qed.

Lemma apps_only_grow_at_the_end_witness :
  exists added : list string,
    ["Maps"; "Chat"] = (["Maps"] ++ added)%list
    /\ Py.len ["Maps"] <= Py.len ["Maps"; "Chat"]
       <= Py.len ["Maps"]
          + Py.len (installs [Use 5; InstallApp "Chat"; InstallApp "Maps"]).
Proof.
  apply (apps_only_grow_at_the_end
           (mkDeviceAttrs "Pear" "iFruit 14" 65) (mkDeviceAttrs "Pear" "iFruit 14" 63)
           (mkSmartphoneAttrs "+266" ["Maps"])
           (mkSmartphoneAttrs "+266" ["Maps"; "Chat"])
           [Use 5; InstallApp "Chat"; InstallApp "Maps"]).
  reflexivity.
Defined.

(** ** Battery arithmetic across operations *)

Lemma set_set (self : object) (v w : Z) :
  set__battery (set__battery self v) w = set__battery self w.
Proof. destruct self; reflexivity. Qed.

Lemma drain_drain (self : object) (a b : Z) :
  0 <= a -> 0 <= b ->
  Device__drain (Device__drain self a) b = Device__drain self (a + b).
Proof.
  intros Ha Hb. unfold Device__drain.
  rewrite set_set. f_equal.
  fold (Device_battery_level (set__battery self
          (Py.max 0 (_battery (device_attrs self) - a)))).
  rewrite battery_level_set. unfold_py. lia.
Qed.

Lemma charge_charge (self : object) (a b : Z) :
  battery_ok self ->
  (0 <= a /\ 0 <= b) \/ (a <= 0 /\ b <= 0) ->
  Device_charge (Device_charge self a) b = Device_charge self (a + b).
Proof.
  intros Hok Hsign. unfold Device_charge.
  rewrite set_set. f_equal.
  fold (Device_battery_level (set__battery self
          (Py.max 0 (Py.min 100 (_battery (device_attrs self) + a))))).
  rewrite battery_level_set.
  unfold battery_ok, Device_battery_level in Hok. unfold_py. lia.
Qed.

Lemma perform_level (self self' : object) (o : op) :
  battery_ok self ->
  perform self o = inr self' ->
  battery_ok self'
  /\ (charges_up o = false ->
      Device_battery_level self' <= Device_battery_level self).
Proof.
  unfold battery_ok. intros Hok Hp.
  destruct o as [amount | minutes | name | number minutes].
  - assert (self' = Device_charge self amount) as ->
        by (destruct self; cbn in Hp; now injection Hp as <-).
    rewrite charge_level. pose proof (clamp_range (Device_battery_level self + amount)).
    split; [assumption|]. cbn. intros Hle. apply Z.ltb_ge in Hle.
    unfold clamp.
    destruct (Z.ltb_spec (Device_battery_level self + amount) 0);
      destruct (Z.ltb_spec 100 (Device_battery_level self + amount)); lia.
  - assert (exists q, 0 <= q /\ self' = Device__drain self q) as (q & Hq & ->).
    { destruct self; cbn in Hp; injection Hp as <-; eexists;
        (split; [| reflexivity]); unfold_py; lia. }
    rewrite drain_level. lia.
  - destruct self as [d | d p]; [discriminate Hp|].
    destruct (in_dec string_dec name (apps p)) as [Hin | Hnew].
    + cbn [perform] in Hp. rewrite (install_present d p name Hin) in Hp.
      injection Hp as <-. lia.
    + cbn [perform] in Hp. rewrite (install_new d p name Hnew) in Hp.
      injection Hp as <-. unfold Device_battery_level in *.
      cbn [device_attrs _battery] in *. lia.
  - destruct self as [d | d p]; [discriminate Hp|].
    cbn in Hp. injection Hp as <-. unfold Device_battery_level in *.
    cbn [device_attrs _battery] in *. unfold_py. lia.
Qed.

(** X5. Only [charge] with a positive amount can raise the battery: on an
    instance whose battery is within [0, 100], a sequence of public
    operations without such a [charge] ends at a level no higher than the
    one it started from. *)
Theorem battery_rises_only_by_charging (ops : list op) :
  forall self self' : object,
    battery_ok self ->
    Forall (fun o => charges_up o = false) ops ->
    run self ops = inr self' ->
    Device_battery_level self' <= Device_battery_level self.
Proof.
  induction ops as [| o rest IH]; intros self self' Hok Hall Hrun.
  - injection Hrun as <-. lia.
  - inversion Hall as [| ? ? Ho Hrest]; subst.
    cbn [run] in Hrun.
    destruct (perform self o) as [e | s1] eqn:Hp; [discriminate Hrun|].
    destruct (perform_level self s1 o Hok Hp) as [Hok1 Hle].
    specialize (Hle Ho).
    specialize (IH s1 self' Hok1 Hrest Hrun). lia.
Qed.

Lemma battery_rises_only_by_charging_witness :
  Device_battery_level
    (SmartphoneObj (mkDeviceAttrs "Pear" "iFruit 14" 57)
                   (mkSmartphoneAttrs "+266" ["Maps"]))
  <= Device_battery_level (Smartphone__init__ "Pear" "iFruit 14" "+266" 65).
Proof.
  apply (battery_rises_only_by_charging
           [Use 12; Charge (-4); InstallApp "Maps"; Call "x" 0; Charge 0]).
  - unfold battery_ok. cbn. lia.
  - repeat constructor.
  - reflexivity.
Defined.

(** X6. Calls add up: for durations of at least one minute, two calls in
    a row leave a [Smartphone] exactly as one call of the summed duration
    does, whatever the numbers dialled. *)
Theorem calls_add_up (self : object) (n1 n2 n : string) (m1 m2 : Z) :
  type_of self = cSmartphone ->
  1 <= m1 -> 1 <= m2 ->
  (s <- call self n1 m1 ;; call s n2 m2) = call self n (m1 + m2).
Proof.
  intros Hty H1 H2. destruct self as [d | d p]; [discriminate Hty|].
  change ((s <- call (SmartphoneObj d p) n1 m1 ;; call s n2 m2))
    with (inr (A := Py.exn)
              (Device__drain (Device__drain (SmartphoneObj d p) (Py.max 1 m1))
                             (Py.max 1 m2))).
  change (call (SmartphoneObj d p) n (m1 + m2))
    with (inr (A := Py.exn) (Device__drain (SmartphoneObj d p) (Py.max 1 (m1 + m2)))).
  f_equal. rewrite drain_drain by (unfold_py; lia).
  f_equal. unfold_py. lia.
Qed.

Lemma calls_add_up_witness :
  (s <- call (Smartphone__init__ "Pear" "iFruit 14" "+266" 65) "a" 3 ;;
   call s "b" 70)
  = call (Smartphone__init__ "Pear" "iFruit 14" "+266" 65) "c" (3 + 70).
Proof.
  apply calls_add_up; [reflexivity | lia | lia].
Defined.

(** X7. Splitting a session never costs more: for non-negative durations,
    [use(m1)] followed by [use(m2)] leaves the battery at least as high as
    [use(m1 + m2)] does, and at most one percent higher; on a [Device] and
    on a [Smartphone] alike. *)
Theorem split_use_never_drains_more
        (self whole parts : object) (m1 m2 : Z) :
  0 <= m1 -> 0 <= m2 ->
  use self (m1 + m2) = inr whole ->
  (s <- use self m1 ;; use s m2) = inr parts ->
  Device_battery_level whole <= Device_battery_level parts
  <= Device_battery_level whole + 1.
Proof.
  intros H1 H2 Hwhole Hparts.
  destruct self as [d | d p]; cbn in Hwhole, Hparts;
    injection Hwhole as <-; injection Hparts as <-;
    unfold Device_battery_level; cbn [device_attrs _battery]; unfold_py;
    Z.to_euclidean_division_equations; lia.
Qed.

Lemma split_use_never_drains_more_witness :
  Device_battery_level (DeviceObj (mkDeviceAttrs "Acme" "Tab-10" 72))
  <= Device_battery_level (DeviceObj (mkDeviceAttrs "Acme" "Tab-10" 73))
  <= Device_battery_level (DeviceObj (mkDeviceAttrs "Acme" "Tab-10" 72)) + 1.
Proof.
  apply (split_use_never_drains_more
           (Device__init__ "Acme" "Tab-10" 75) _ _ 17 15);
    [lia | lia | reflexivity | reflexivity].
Defined.

Example split_use_can_save_a_percent :
  (s <- use (Device__init__ "Acme" "Tab-10" 75) 17 ;;
   s <- use s 15 ;; battery_level s) = inr 73
  /\ (s <- use (Device__init__ "Acme" "Tab-10" 75) (17 + 15) ;;
      battery_level s) = inr 72.
Proof. split; reflexivity. Qed.

(** X8. Charges of one sign add up: on an instance whose battery is within
    [0, 100], two charges that are both non-negative, or both non-positive,
    leave it exactly as one charge of the summed amount does. *)
Theorem same_sign_charges_add_up (self : object) (a b : Z) :
  battery_ok self ->
  (0 <= a /\ 0 <= b) \/ (a <= 0 /\ b <= 0) ->
  (s <- charge self a ;; charge s b) = charge self (a + b).
Proof.
  intros Hok Hsign.
  assert (Hc : forall s x, charge s x = inr (Device_charge s x))
    by (intros s x; destruct s; reflexivity).
  rewrite !Hc. cbn [Py.bind]. rewrite Hc. f_equal.
  now apply charge_charge.
Qed.

Lemma same_sign_charges_add_up_witness :
  (s <- charge (Device__init__ "Acme" "Tab-10" 75) 20 ;; charge s 30)
  = charge (Device__init__ "Acme" "Tab-10" 75) (20 + 30).
Proof.
  apply same_sign_charges_add_up.
  - unfold battery_ok. cbn. lia.
  - left. lia.
Defined.

Example mixed_charges_do_not_add_up :
  (s <- charge (Device__init__ "Acme" "Tab-10" 90) 20 ;;
   s <- charge s (-20) ;; battery_level s) = inr 80
  /\ (s <- charge (Device__init__ "Acme" "Tab-10" 90) (20 + -20) ;;
      battery_level s) = inr 90.
Proof. split; reflexivity. Qed.

Lemma charge_runs (self : object) (a : Z) :
  charge self a = inr (Device_charge self a).
Proof. destruct self; reflexivity. Qed.

Lemma call_runs (self : object) (number : string) (m : Z) :
  type_of self = cSmartphone ->
  call self number m = inr (Device__drain self (Z.max 1 m)).
Proof. destruct self; [discriminate | reflexivity]. Qed.

Lemma use_runs (self : object) (m : Z) :
  use self m
  = inr (Device__drain self
           (Z.max 0 (m / match type_of self with
                          | cDevice => 10
                          | cSmartphone => 5
                          end))).
Proof. destruct self; reflexivity. Qed.

(** X9. Within the battery's range a charge and a call of the same size
    undo each other: on a [Smartphone] with battery in [0, 100] and
    [n >= 1], [charge(n)] then [call(_, n)] restores the instance when
    [battery + n <= 100], and [call(_, n)] then [charge(n)] restores it
    when [n <= battery]. *)
Theorem charge_and_call_undo_each_other
        (self : object) (number : string) (n : Z) :
  type_of self = cSmartphone ->
  battery_ok self ->
  1 <= n ->
  (Device_battery_level self + n <= 100 ->
   (s <- charge self n ;; call s number n) = inr self)
  /\ (n <= Device_battery_level self ->
      (s <- call self number n ;; charge s n) = inr self).
Proof.
  intros Hty Hok Hn. unfold battery_ok in Hok. split; intros Hroom.
  - rewrite charge_runs. cbn [Py.bind].
    rewrite call_runs by (unfold Device_charge; now rewrite type_of_set).
    f_equal. unfold Device__drain, Device_charge. rewrite set_set.
    fold (Device_battery_level (set__battery self
            (Py.max 0 (Py.min 100 (_battery (device_attrs self) + n))))).
    rewrite battery_level_set.
    transitivity (set__battery self (Device_battery_level self));
      [| apply set_same].
    f_equal. unfold Device_battery_level in *. unfold_py. lia.
  - rewrite call_runs by exact Hty. cbn [Py.bind]. rewrite charge_runs.
    f_equal. unfold Device__drain, Device_charge. rewrite set_set.
    fold (Device_battery_level (set__battery self
            (Py.max 0 (_battery (device_attrs self) - Z.max 1 n)))).
    rewrite battery_level_set.
    transitivity (set__battery self (Device_battery_level self));
      [| apply set_same].
    f_equal. unfold Device_battery_level in *. unfold_py. lia.
Qed.

Lemma charge_and_call_undo_each_other_witness :
  (s <- charge (Smartphone__init__ "Pear" "iFruit 14" "+266" 65) 20 ;;
   call s "x" 20)
  = inr (Smartphone__init__ "Pear" "iFruit 14" "+266" 65).
Proof.
  apply (proj1 (charge_and_call_undo_each_other
                  (Smartphone__init__ "Pear" "iFruit 14" "+266" 65) "x" 20
                  eq_refl
                  ltac:(unfold battery_ok; cbn; lia)
                  ltac:(lia))).
  cbn. lia.
Defined.

Example charge_at_the_top_is_not_undone :
  (s <- charge (Smartphone__init__ "Pear" "iFruit 14" "+266" 95) 20 ;;
   s <- call s "x" 20 ;; battery_level s) = inr 80.
Proof. reflexivity. Qed.

(** X10. Saturation.  On an instance with battery in [0, 100]: a charge
    of 100 or more fills the battery and a charge of -100 or less empties
    it; [use] of 1000 minutes or more (500 on a [Smartphone]) and a call of
    100 minutes or more empty it. *)
Theorem large_amounts_saturate (self self' : object) :
  battery_ok self ->
  (forall a, 100 <= a -> charge self a = inr self' ->
             Device_battery_level self' = 100)
  /\ (forall a, a <= -100 -> charge self a = inr self' ->
                Device_battery_level self' = 0)
  /\ (forall m, 1000 <= m -> use self m = inr self' ->
                Device_battery_level self' = 0)
  /\ (forall m, type_of self = cSmartphone -> 500 <= m ->
                use self m = inr self' ->
                Device_battery_level self' = 0)
  /\ (forall number m, 100 <= m -> call self number m = inr self' ->
                       Device_battery_level self' = 0).
Proof.
  unfold battery_ok. intros Hok.
  split; [| split; [| split; [| split]]].
  - intros a Ha. rewrite charge_runs. intros [= <-].
    unfold Device_charge. rewrite battery_level_set.
    unfold Device_battery_level in Hok. unfold_py. lia.
  - intros a Ha. rewrite charge_runs. intros [= <-].
    unfold Device_charge. rewrite battery_level_set.
    unfold Device_battery_level in Hok. unfold_py. lia.
  - intros m Hm. rewrite use_runs. intros [= <-]. rewrite drain_level.
    destruct (type_of self); Z.to_euclidean_division_equations; lia.
  - intros m Hty Hm. rewrite use_runs, Hty. intros [= <-]. rewrite drain_level.
    Z.to_euclidean_division_equations; lia.
  - intros number m Hm Hcall.
    destruct self as [d | d p]; [discriminate Hcall|].
    rewrite call_runs in Hcall by reflexivity. injection Hcall as <-.
    unfold Device_battery_level in *. cbn [device_attrs _battery] in *.
    unfold_py. lia.
Qed.

Lemma large_amounts_saturate_witness :
  Device_battery_level (DeviceObj (mkDeviceAttrs "Acme" "Tab-10" 100)) = 100.
Proof.
  apply (proj1 (large_amounts_saturate
                  (Device__init__ "Acme" "Tab-10" 3)
                  (DeviceObj (mkDeviceAttrs "Acme" "Tab-10" 100))
                  ltac:(unfold battery_ok; cbn; lia))
           250); [lia | reflexivity].
Defined.

(** X11. Installing never fails for lack of battery: on a [Smartphone]
    whose battery is not negative, installing a list of pairwise different
    names that are not installed yet adds them all, in order, and leaves the
    battery at [max(0, battery - k)] for [k] names. *)
Theorem installing_new_names (names : list string) :
  forall (d : DeviceAttrs) (p : SmartphoneAttrs),
    0 <= _battery d ->
    NoDup names ->
    (forall n, In n names -> ~ In n (apps p)) ->
    run (SmartphoneObj d p) (map InstallApp names)
    = inr (SmartphoneObj
             (mkDeviceAttrs (brand d) (model d)
                            (Z.max 0 (_battery d - Py.len names)))
             (mkSmartphoneAttrs (phone_number p) (apps p ++ names))).
Proof.
  induction names as [| n rest IH]; intros d p Hlvl Hnd Hnew.
  - cbn. destruct d as [b m l], p as [num a]. cbn in *.
    rewrite app_nil_r. replace (Z.max 0 (l - 0)) with l by lia. reflexivity.
  - inversion Hnd as [| ? ? Hn Hrest]; subst.
    cbn [map run perform].
    rewrite (install_new d p n) by (apply Hnew; now left).
    cbn [Py.bind]. rewrite IH; cbn [_battery brand model phone_number apps].
    + rewrite <- app_assoc. cbn [app].
      replace (Z.max 0 (Z.max 0 (_battery d - 1) - Py.len rest))
        with (Z.max 0 (_battery d - Py.len (n :: rest)))
        by (unfold Py.len; cbn [List.length]; lia).
      reflexivity.
    + lia.
    + exact Hrest.
    + intros x Hx Hin. apply in_app_or in Hin as [Hold | [<- | []]].
      * apply (Hnew x); [now right | exact Hold].
      * contradiction.
Qed.

Lemma installing_new_names_witness :
  run (Smartphone__init__ "Pear" "iFruit 14" "+266" 2)
      (map InstallApp ["Maps"; "Chat"; "Music"])
  = inr (SmartphoneObj (mkDeviceAttrs "Pear" "iFruit 14" 0)
                       (mkSmartphoneAttrs "+266" ["Maps"; "Chat"; "Music"])).
Proof.
  apply (installing_new_names ["Maps"; "Chat"; "Music"]
           (mkDeviceAttrs "Pear" "iFruit 14" 2) (mkSmartphoneAttrs "+266" [])).
  - cbn. lia.
  - repeat constructor; cbn; intuition discriminate.
  - intros n _ [].
Defined.

(** ** Reading the battery level back from the text *)

Lemma has_space_middle (p q : string) : has_space (p ++ String " " q) = true.
Proof. rewrite has_space_append. cbn. apply orb_true_r. Qed.

Lemma after_last_space_append (p q : string) :
  has_space q = false -> after_last_space (p ++ String " " q) = q.
Proof.
  intros Hq. induction p as [| c p IH]; cbn [append after_last_space].
  - now rewrite Hq.
  - now rewrite has_space_middle.
Qed.

Lemma append_char_inj (a b : string) (c : ascii) :
  a ++ String c "" = b ++ String c "" -> a = b.
Proof.
  revert b. induction a as [| x a IH]; intros [| y b] H; cbn in H.
  - reflexivity.
  - injection H as _ H. now destruct b.
  - injection H as _ H. now destruct a.
  - injection H as -> H. f_equal. now apply IH.
Qed.

Lemma to_int_proper (n : Z) :
  Z.to_int n <> Decimal.Pos Decimal.Nil /\ Z.to_int n <> Decimal.Neg Decimal.Nil.
Proof.
  destruct n as [| q | q]; cbn; split; try discriminate;
    intros [= H]; now apply (Unsigned.to_uint_nonnil q).
Qed.

(** [str] on integers can be read back. *)
Lemma str_inj (a b : Z) : Py.str a = Py.str b -> a = b.
Proof.
  unfold Py.str. intros H.
  apply (f_equal NilZero.int_of_string) in H.
  destruct (to_int_proper a) as [Ha1 Ha2], (to_int_proper b) as [Hb1 Hb2].
  rewrite !NilZero.isi in H by assumption.
  injection H as H. now apply DecimalZ.to_int_inj.
Qed.

Lemma str_tail (x : object) (s : string) :
  str x = inr s ->
  after_last_space s = Py.str (Device_battery_level x) ++ "%".
Proof.
  destruct x as [d | d p]; intros Hs.
  - assert (E : s = (brand d ++ " " ++ model d ++ " — Battery:")
                    ++ String " " (Py.str (Device_battery_level (DeviceObj d)) ++ "%")).
    { injection Hs as <-. unfold Device_specs. now rewrite !append_assoc. }
    rewrite E. apply after_last_space_append, battery_field_no_space.
  - assert (E : s = (brand d ++ " " ++ model d ++ " (📱 " ++ phone_number p
                     ++ ") — " ++ "Apps: " ++ Py.str (Py.len (apps p))
                     ++ ", Battery:")
                    ++ String " "
                         (Py.str (Device_battery_level (SmartphoneObj d p)) ++ "%")).
    { injection Hs as <-. now rewrite !append_assoc. }
    rewrite E. apply after_last_space_append, battery_field_no_space.
Qed.

(** X12. The text of an instance shows its battery level without
    ambiguity: two instances with the same [str] text, of either class and
    whatever their brands, models and numbers, have the same battery
    level. *)
Theorem same_text_same_battery_level (x y : object) (s : string) :
  str x = inr s -> str y = inr s ->
  Device_battery_level x = Device_battery_level y.
Proof.
  intros Hx Hy.
  apply str_tail in Hx. apply str_tail in Hy.
  rewrite Hx in Hy. apply append_char_inj in Hy. now apply str_inj.
Qed.

Lemma same_text_same_battery_level_witness :
  Device_battery_level (Device__init__ "Acme Tab" "10" 75)
  = Device_battery_level (Device__init__ "Acme" "Tab 10" 75).
Proof.
  apply (same_text_same_battery_level _ _ "Acme Tab 10 — Battery: 75%");
    reflexivity.
Defined.

Example same_text_different_brand :
  str (Device__init__ "Acme Tab" "10" 75) = str (Device__init__ "Acme" "Tab 10" 75)
  /\ brand (device_attrs (Device__init__ "Acme Tab" "10" 75))
     <> brand (device_attrs (Device__init__ "Acme" "Tab 10" 75)).
Proof. split; [reflexivity | discriminate]. Qed.

(** ** Vehicles: dispatch and the demo loop *)

(** X13. Whatever classes are derived from [Vehicle], [move()] on an
    instance that exists runs a function that is not abstract, so never the
    body of [Vehicle.move]: a class that would still resolve [move] to an
    abstract function has no instances. *)
Theorem move_never_runs_an_abstract_function
        (c : pyclass) (v : instance) (f : function) :
  new c = inr v ->
  getattr c "move" = Some f ->
  move v = code f
  /\ __isabstractmethod__ f = false
  /\ f <> Vehicle_move.
Proof.
  intros Hnew Hget.
  pose proof (instances_run_concrete_functions c v "move" f Hnew Hget) as Hf.
  assert (Hv : v = mkInstance c).
  { unfold new in Hnew. destruct (abstractmethods c); [| discriminate Hnew].
    now injection Hnew as <-. }
  subst v. unfold move. cbn [__class__]. rewrite Hget.
  repeat split; [exact Hf|]. intros ->. discriminate Hf.
Qed.

Lemma move_never_runs_an_abstract_function_witness :
  move (mkInstance (ClassDef "Taxi" Car [])) = code Car_move
  /\ __isabstractmethod__ Car_move = false
  /\ Car_move <> Vehicle_move.
Proof.
  apply (move_never_runs_an_abstract_function (ClassDef "Taxi" Car []));
    reflexivity.
Defined.

(** X14. The loop of [demo_activity_2] over any list of vehicles prints
    one line per vehicle, [<class name>: <text of move()>], in list order,
    after what was printed before, and returns; when [move()] raises on
    some vehicle the loop stops there with that exception, the lines of the
    vehicles before it printed and nothing after. *)
Theorem print_moves_line_per_vehicle :
  (forall (vs : list instance) (texts out : list string),
      map move vs = map inr texts ->
      print_moves vs out
      = ((out ++ map (fun vt => move_line (fst vt) (snd vt)) (combine vs texts))%list,
         inr tt))
  /\ (forall (pre post : list instance) (v : instance) (e : Py.exn)
             (texts out : list string),
         map move pre = map inr texts ->
         move v = inl e ->
         print_moves (pre ++ v :: post)%list out
         = ((out ++ map (fun vt => move_line (fst vt) (snd vt)) (combine pre texts))%list,
            inl e)).
Proof.
  split.
  - induction vs as [| v vs IH]; intros texts out Hmap.
    + cbn. now rewrite app_nil_r.
    + destruct texts as [| t texts]; [discriminate Hmap|].
      cbn [map] in Hmap. injection Hmap as Hv Hrest.
      cbn [print_moves]. unfold io_bind at 1, lift. rewrite Hv.
      unfold io_bind at 1, print. rewrite (IH texts _ Hrest).
      cbn [combine map fst snd]. unfold move_line.
      now rewrite <- app_assoc.
  - induction pre as [| w pre IH]; intros post v e texts out Hmap Hv.
    + cbn [app print_moves combine map]. unfold io_bind at 1, lift. rewrite Hv.
      now rewrite app_nil_r.
    + destruct texts as [| t texts]; [discriminate Hmap|].
      cbn [map] in Hmap. injection Hmap as Hw Hrest.
      cbn [app print_moves]. unfold io_bind at 1, lift. rewrite Hw.
      unfold io_bind at 1, print. rewrite (IH post v e texts _ Hrest Hv).
      cbn [combine map fst snd]. unfold move_line.
      now rewrite <- app_assoc.
Qed.

Lemma print_moves_line_per_vehicle_witness :
  print_moves [mkInstance Plane; mkInstance (ClassDef "Taxi" Car [])] ["garage:"]
  = (["garage:"; "Plane: Flying ✈️"; "Taxi: Driving 🚗"], inr tt).
Proof.
  apply (proj1 print_moves_line_per_vehicle
           [mkInstance Plane; mkInstance (ClassDef "Taxi" Car [])]
           ["Flying ✈️"; "Driving 🚗"] ["garage:"]).
  reflexivity.
Defined.

Example print_moves_stops_at_a_raise :
  print_moves
    [mkInstance Bike;
     mkInstance (ClassDef "Glider" Vehicle
                          [("move", def (Py.raise Py.NotImplementedError))]);
     mkInstance Car]
    []
  = (["Bike: Riding 🚲"], inl Py.NotImplementedError).
Proof. reflexivity. Qed.

(** ** More on the two classes *)

(** X15. The override drains at least as fast: after [use(minutes)], for
    any integer [minutes], a [Smartphone] is never left with more battery
    than a [Device] that started at the same level. *)
Theorem Smartphone_use_never_leaves_more
        (d0 d : DeviceAttrs) (p : SmartphoneAttrs) (minutes : Z)
        (dev phone : object) :
  _battery d = _battery d0 ->
  use (DeviceObj d0) minutes = inr dev ->
  use (SmartphoneObj d p) minutes = inr phone ->
  Device_battery_level phone <= Device_battery_level dev.
Proof.
  intros Hsame Hdev Hphone.
  rewrite use_runs in Hdev, Hphone. cbn [type_of] in Hdev, Hphone.
  assert (Ed : dev = Device__drain (DeviceObj d0) (Z.max 0 (minutes / 10)))
    by congruence.
  assert (Ep : phone = Device__drain (SmartphoneObj d p) (Z.max 0 (minutes / 5)))
    by congruence.
  rewrite Ed, Ep, !drain_level. unfold Device_battery_level. cbn [device_attrs].
  rewrite Hsame. Z.to_euclidean_division_equations; lia.
Qed.

Lemma Smartphone_use_never_leaves_more_witness :
  Device_battery_level
    (SmartphoneObj (mkDeviceAttrs "Pear" "iFruit 14" 58) (mkSmartphoneAttrs "+266" []))
  <= Device_battery_level (DeviceObj (mkDeviceAttrs "Acme" "Tab-10" 62)).
Proof.
  apply (Smartphone_use_never_leaves_more
           (mkDeviceAttrs "Acme" "Tab-10" 65) (mkDeviceAttrs "Pear" "iFruit 14" 65)
           (mkSmartphoneAttrs "+266" []) 37);
    reflexivity.
Defined.

(** X16. The only way a public operation raises is a missing method:
    an operation raises exactly when the class of the instance does not
    provide it, the exception is then [AttributeError], and this happens
    only for [install_app] and [call] on a plain [Device].  On a
    [Smartphone] no sequence of operations raises. *)
Theorem only_missing_methods_raise :
  (forall (self : object) (o : op) (e : Py.exn),
      perform self o = inl e <->
      e = Py.AttributeError /\ supports (type_of self) o = false)
  /\ (forall (self : object) (o : op),
         supports (type_of self) o = false <->
         type_of self = cDevice
         /\ (exists name, o = InstallApp name) \/
         type_of self = cDevice
         /\ (exists number minutes, o = Call number minutes))
  /\ (forall (d : DeviceAttrs) (p : SmartphoneAttrs) (ops : list op),
         exists self', run (SmartphoneObj d p) ops = inr self').
Proof.
  split; [| split].
  - intros self o e.
    destruct self as [d | d p], o as [a | m | n | n m].
    + cbn. split; [discriminate | intros [_ H]; discriminate H].
    + cbn. split; [discriminate | intros [_ H]; discriminate H].
    + cbn. split; [intros [= <-]; now split | intros [-> _]; reflexivity].
    + cbn. split; [intros [= <-]; now split | intros [-> _]; reflexivity].
    + cbn. split; [discriminate | intros [_ H]; discriminate H].
    + cbn. split; [discriminate | intros [_ H]; discriminate H].
    + cbn. destruct (Py.contains n (apps p)); cbn;
        (split; [discriminate | intros [_ H]; discriminate H]).
    + cbn. split; [discriminate | intros [_ H]; discriminate H].
  - intros self o.
    destruct self as [d | d p], o as [a | m | n | n m]; cbn.
    + split; [discriminate |].
      intros [[_ [x H]] | [_ (x & y & H)]]; discriminate H.
    + split; [discriminate |].
      intros [[_ [x H]] | [_ (x & y & H)]]; discriminate H.
    + split; [| reflexivity].
      intros _. left. split; [reflexivity | now exists n].
    + split; [| reflexivity].
      intros _. right. split; [reflexivity | now exists n, m].
    + split; [discriminate | intros [[H _] | [H _]]; discriminate H].
    + split; [discriminate | intros [[H _] | [H _]]; discriminate H].
    + split; [discriminate | intros [[H _] | [H _]]; discriminate H].
    + split; [discriminate | intros [[H _] | [H _]]; discriminate H].
  - intros d p ops. revert d p.
    induction ops as [| o rest IH]; intros d p.
    + now exists (SmartphoneObj d p).
    + cbn [run].
      destruct (perform (SmartphoneObj d p) o) as [e | s1] eqn:Hp.
      * exfalso. destruct o as [a | m | n | n m]; cbn in Hp;
          try destruct (Py.contains n (apps p)); discriminate Hp.
      * destruct (perform_smartphone d p o s1 Hp) as (d1 & p1 & -> & _).
        cbn [Py.bind]. apply IH.
Qed.

Lemma only_missing_methods_raise_witness :
  perform (Device__init__ "Acme" "Tab-10" 75) (Call "x" 3) = inl Py.AttributeError.
Proof.
  apply (proj1 only_missing_methods_raise). split; reflexivity.
Defined.

Lemma count_field_no_space (n : Z) : has_space (Py.str n ++ ",") = false.
Proof. now rewrite has_space_append, str_no_space. Qed.

Lemma Smartphone_text_count_field (d : DeviceAttrs) (p : SmartphoneAttrs)
      (s : string) :
  str (SmartphoneObj d p) = inr s ->
  third_field_from_end s = Py.str (Py.len (apps p)) ++ ",".
Proof.
  intros Hs.
  set (lvl := Py.str (Device_battery_level (SmartphoneObj d p))).
  set (count := Py.str (Py.len (apps p))).
  set (front := brand d ++ " " ++ model d ++ " (📱 " ++ phone_number p ++ ") — ").
  assert (E1 : s = (front ++ "Apps: " ++ count ++ ", Battery:")
                   ++ String " " (lvl ++ "%")).
  { injection Hs as <-. unfold front. now rewrite !append_assoc. }
  assert (E2 : front ++ "Apps: " ++ count ++ ", Battery:"
               = (front ++ "Apps: " ++ count ++ ",") ++ String " " "Battery:")
    by (now rewrite !append_assoc).
  assert (E3 : front ++ "Apps: " ++ count ++ ","
               = (front ++ "Apps:") ++ String " " (count ++ ","))
    by (now rewrite !append_assoc).
  unfold third_field_from_end.
  rewrite E1, before_last_space_append by apply battery_field_no_space.
  rewrite E2, before_last_space_append by reflexivity.
  rewrite E3. apply after_last_space_append, count_field_no_space.
Qed.

(** X17. The text of a [Smartphone] shows the number of installed apps
    without ambiguity: two [Smartphone]s with the same [str] text have the
    same number of apps, whatever their brands, models and phone numbers. *)
Theorem same_text_same_app_count
        (d d' : DeviceAttrs) (p p' : SmartphoneAttrs) (s : string) :
  str (SmartphoneObj d p) = inr s ->
  str (SmartphoneObj d' p') = inr s ->
  Py.len (apps p) = Py.len (apps p').
Proof.
  intros Hx Hy.
  apply Smartphone_text_count_field in Hx.
  apply Smartphone_text_count_field in Hy.
  rewrite Hx in Hy. apply append_char_inj in Hy. now apply str_inj.
Qed.

Lemma same_text_same_app_count_witness :
  Py.len ["Maps"] = Py.len ["Chat"].
Proof.
  apply (same_text_same_app_count
           (mkDeviceAttrs "Pear" "iFruit 14" 65) (mkDeviceAttrs "Pear iFruit" "14" 65)
           (mkSmartphoneAttrs "+266" ["Maps"]) (mkSmartphoneAttrs "+266" ["Chat"])
           "Pear iFruit 14 (📱 +266) — Apps: 1, Battery: 65%");
    reflexivity.
Defined.
